(** * Apache Benchmark runner and session log store

    A shallow embedding of the benchmark execution engine of the
    repository: [server/src/apache-benchmark.ts] (class
    [ApacheBenchmarkRunner]) and the session log buffer of the server entry
    point ([addLogToSession]).

    Conventions of the embedding.
    - JavaScript strings are [string] (sequences of 8-bit units); [trim]
      strips the ASCII members of the JavaScript white space set.
    - The integer counts of a configuration are [Z]; an optional property
      is an [option], and a JavaScript condition on it is written out as
      the truthiness test the source performs.
    - The runner's [Map] and [Set] are stdpp's [gmap] and [gset]; child
      process objects live in a heap and are referred to by handle, since
      the map and the callbacks of a run share them.
    - Every callback runs to completion, so a callback is a function on the
      state; what it does to the outside (log sink, signals, files,
      promise) is appended to a trace in program order.
    - Builtins whose result the source only passes along (JSON, [eval],
      [URL], floating point parsing and printing) are fields of the class
      [Platform]. *)

From Stdlib Require Import ZArith Ascii Bool Lia.
From stdpp Require Import base option list strings pretty gmap.

Local Open Scope Z_scope.

(** ** String builtins *)

Definition is_digit (c : ascii) : bool :=
  match Ascii.is_nat c with Some _ => true | None => false end.

(** [s.startsWith(pat)] *)
Fixpoint startsWith (s pat : string) : bool :=
  match pat, s with
  | EmptyString, _ => true
  | String p pat', String c s' =>
      if decide (p = c) then startsWith s' pat' else false
  | String _ _, EmptyString => false
  end.

(** The rest of [s] after the prefix [pat], when [s] starts with it. *)
Fixpoint strip_prefix (pat s : string) : option string :=
  match pat, s with
  | EmptyString, _ => Some s
  | String p pat', String c s' =>
      if decide (p = c) then strip_prefix pat' s' else None
  | String _ _, EmptyString => None
  end.

(** [s.includes(pat)] *)
Fixpoint includes (s pat : string) : bool :=
  startsWith s pat ||
  match s with
  | EmptyString => false
  | String _ s' => includes s' pat
  end.

Definition endsWith (s pat : string) : bool :=
  startsWith (String.rev s) (String.rev pat).

Fixpoint trimStart (s : string) : string :=
  match s with
  | EmptyString => EmptyString
  | String c s' => if Ascii.is_space c then trimStart s' else s
  end.

Definition trimEnd (s : string) : string :=
  String.rev (trimStart (String.rev s)).

(** [s.trim()] *)
Definition trim (s : string) : string := trimEnd (trimStart s).

(** [s.split(sep)] for a non-empty separator: [skip] counts the units of a
    separator occurrence still to be passed over, [cur] is the current
    piece, reversed. *)
Fixpoint split_go (sep : string) (skip : nat) (cur s : string) : list string :=
  match s with
  | EmptyString => [String.rev cur]
  | String c s' =>
      match skip with
      | S k => split_go sep k cur s'
      | O =>
          if startsWith s sep
          then String.rev cur :: split_go sep (Nat.pred (String.length sep)) EmptyString s'
          else split_go sep 0 (String c cur) s'
      end
  end.

Definition split (s sep : string) : list string := split_go sep 0 EmptyString s.

(** [xs.join(sep)] *)
Fixpoint join (sep : string) (xs : list string) : string :=
  match xs with
  | [] => ""
  | [x] => x
  | x :: rest => x +:+ sep +:+ join sep rest
  end.

(** [s.substring(0, n)] *)
Fixpoint substring0 (n : nat) (s : string) : string :=
  match n, s with
  | S k, String c s' => String c (substring0 k s')
  | _, _ => EmptyString
  end.

(** ASCII part of [s.toLowerCase()]. *)
Definition lower_ascii (c : ascii) : ascii :=
  let n := nat_of_ascii c in
  if ((65 <=? n) && (n <=? 90))%nat then ascii_of_nat (n + 32) else c.

Fixpoint toLowerCase (s : string) : string :=
  match s with
  | EmptyString => EmptyString
  | String c s' => String (lower_ascii c) (toLowerCase s')
  end.

(** ** Numbers read by [parseInt] *)

Inductive jsint : Type :=
  | NaN
  | Int (z : Z).

Global Instance jsint_eq_dec : EqDecision jsint.
Proof. solve_decision. Defined.

(** Truthiness of a number: neither [NaN] nor zero. *)
Definition jsint_truthy (n : jsint) : bool :=
  match n with
  | NaN => false
  | Int z => negb (z =? 0)
  end.

Definition digit_value (c : ascii) : option Z :=
  let n := nat_of_ascii c in
  if ((48 <=? n) && (n <=? 57))%nat then Some (Z.of_nat n - 48)
  else if ((97 <=? n) && (n <=? 122))%nat then Some (Z.of_nat n - 87)
  else if ((65 <=? n) && (n <=? 90))%nat then Some (Z.of_nat n - 55)
  else None.

(** Longest prefix of digits of the radix, read as a number; [acc] is the
    value read so far ([None] before the first digit). *)
Fixpoint parse_digits (radix : Z) (acc : option Z) (s : string) : option Z :=
  match s with
  | EmptyString => acc
  | String c s' =>
      match digit_value c with
      | Some d =>
          if d <? radix
          then parse_digits radix (Some (default 0 acc * radix + d)) s'
          else acc
      | None => acc
      end
  end.

Definition strip_hex_prefix (s : string) : option string :=
  match s with
  | String "0" (String "x" r) | String "0" (String "X" r) => Some r
  | _ => None
  end.

(** [parseInt(s, radix)]; [radix = None] is the one-argument call. *)
Definition parseInt (s : string) (radix : option Z) : jsint :=
  let s1 := trimStart s in
  let '(neg, s2) :=
    match s1 with
    | String "-" r => (true, r)
    | String "+" r => (false, r)
    | _ => (false, s1)
    end in
  let r0 := default 0 radix in
  if negb (r0 =? 0) && ((r0 <? 2) || (36 <? r0)) then NaN
  else
    let '(r, s3) :=
      if (r0 =? 0) || (r0 =? 16) then
        match strip_hex_prefix s2 with
        | Some rest => (16, rest)
        | None => (if r0 =? 0 then 10 else r0, s2)
        end
      else (r0, s2) in
    match parse_digits r None s3 with
    | None => NaN
    | Some v => Int (if neg : bool then - v else v)
    end.

(** ** The regular expressions of the source *)

Fixpoint take_digits (s : string) : string * string :=
  match s with
  | EmptyString => (EmptyString, EmptyString)
  | String c s' =>
      if is_digit c
      then let '(d, r) := take_digits s' in (String c d, r)
      else (EmptyString, s)
  end.

(** Leftmost position of [s] at which [f] matches. *)
Fixpoint scan {A} (f : string → option A) (s : string) : option A :=
  match f s with
  | Some a => Some a
  | None =>
      match s with
      | EmptyString => None
      | String _ s' => scan f s'
      end
  end.

Fixpoint all_digits (s : string) : bool :=
  match s with
  | EmptyString => true
  | String c s' => is_digit c && all_digits s'
  end.

(** [/HTTP\/1\.[01] (\d{3})/] anchored at the start of [s]: group 1. *)
Definition http_status_at (s : string) : option string :=
  match strip_prefix "HTTP/1." s with
  | Some (String v (String sp (String a (String b (String c _))))) =>
      if (bool_decide (v = "0"%char) || bool_decide (v = "1"%char))
         && bool_decide (sp = " "%char)
         && is_digit a && is_digit b && is_digit c
      then Some (String a (String b (String c EmptyString)))
      else None
  | _ => None
  end.

(** [s.match(/HTTP\/1\.[01] (\d{3})/)]: group 1 of the leftmost match. *)
Definition match_http_status (s : string) : option string :=
  scan http_status_at s.

(** [/Response code not 2xx \((\d+)\)/] *)
Definition not_2xx_at (s : string) : option string :=
  match strip_prefix "Response code not 2xx (" s with
  | Some r =>
      let '(d, rest) := take_digits r in
      match d, rest with
      | String _ _, String ")" _ => Some d
      | _, _ => None
      end
  | None => None
  end.

Definition match_not_2xx (s : string) : option string := scan not_2xx_at s.

(** [/Response code = (\d+)/] *)
Definition response_code_at (s : string) : option string :=
  match strip_prefix "Response code = " s with
  | Some r =>
      match fst (take_digits r) with
      | EmptyString => None
      | d => Some d
      end
  | None => None
  end.

Definition match_response_code (s : string) : option string :=
  scan response_code_at s.

(** [/Completed (\d+) requests/] *)
Definition completed_at (s : string) : option string :=
  match strip_prefix "Completed " s with
  | Some r =>
      let '(d, rest) := take_digits r in
      match d with
      | EmptyString => None
      | _ => if startsWith rest " requests" then Some d else None
      end
  | None => None
  end.

Definition match_completed (s : string) : option string := scan completed_at s.


(** ** Platform builtins

    JavaScript values whose shape the source does not inspect ([JsVal]: the
    results of [JSON.parse] and [eval]) and floating point numbers
    ([JsFloat]: the results of [parseFloat]) are abstract; the operations
    the source applies to them are the fields below. *)

Inductive Exc (A : Type) : Type :=
  | Ret (a : A)
  | Throw (e : string).
Arguments Ret {A} a.
Arguments Throw {A} e.

Definition exc_bind {A B} (m : Exc A) (k : A → Exc B) : Exc B :=
  match m with
  | Ret a => k a
  | Throw e => Throw e
  end.

Notation "x ←! m ; k" := (exc_bind m (λ x, k))
  (at level 20, m at level 100, k at level 200, only parsing, right associativity).

Class Platform : Type := {
  JsVal : Type;
  (** [JSON.parse(s)]; [None] when it throws *)
  JSON_parse : string → option JsVal;
  (** [eval(s)]; [None] when it throws *)
  js_eval : string → option JsVal;
  JSON_stringify : JsVal → string;
  (** [String(v)], also the conversion of a template literal *)
  js_String : JsVal → string;
  (** [typeof v === 'object'] *)
  js_is_object : JsVal → bool;
  (** [Object.entries(v)]; throws on [null] and [undefined] *)
  js_entries : JsVal → Exc (list (string * JsVal));
  (** [v.name], [undefined] when absent *)
  js_get : JsVal → string → JsVal;
  js_truthy : JsVal → bool;
  js_of_string : string → JsVal;
  js_of_Z : Z → JsVal;
  (** [v >= n] *)
  js_ge : JsVal → Z → bool;
  (** [params.toString()] of the [URLSearchParams] built by appending the
      pairs in order *)
  URLSearchParams_toString : list (string * string) → string;
  (** [new URL(s)] does not throw *)
  URL_parses : string → bool;
  JsFloat : Type;
  parseFloat : string → JsFloat;
  float_truthy : JsFloat → bool;
  (** [x.toFixed(2)] *)
  toFixed2 : JsFloat → string;
  (** [os.tmpdir()] *)
  tmpdir : string;
}.

(** ** Configuration *)

Inductive Method : Type := GET | POST | PUT | DELETE | HEAD.

Global Instance Method_eq_dec : EqDecision Method.
Proof. solve_decision. Defined.

Definition method_name (m : Method) : string :=
  match m with
  | GET => "GET"
  | POST => "POST"
  | PUT => "PUT"
  | DELETE => "DELETE"
  | HEAD => "HEAD"
  end.

(** [ABTestConfig]: [headers] and [cookies] list the properties of the
    object in enumeration order. *)
Record ABTestConfig : Type := {
  url : string;
  requests : Z;
  concurrency : Z;
  timelimit : option Z;
  keepalive : option bool;
  method : option Method;
  headers : option (list (string * string));
  cookies : option (list (string * string));
  dataBody : option string;
  contentType : option string;
  timeout : option Z;
  verbosity : option Z;
  authUsername : option string;
  authPassword : option string;
  proxyUrl : option string;
  acceptVaryingLength : option bool;
}.

(** Truthiness of a string, of an optional string, number and flag. *)
Definition nonempty (s : string) : bool :=
  match s with
  | EmptyString => false
  | String _ _ => true
  end.

Definition truthy_str (o : option string) : bool :=
  match o with
  | Some s => nonempty s
  | None => false
  end.

Definition truthy_num (o : option Z) : bool :=
  match o with
  | Some z => negb (z =? 0)
  | None => false
  end.

Definition truthy_flag (o : option bool) : bool := default false o.

Section Builder.
Context `{Platform}.

(** *** validateConfig *)

Definition validateConfig (config : ABTestConfig) : list string :=
  let errors := [] in
  let errors :=
    if negb (nonempty (url config))
    then errors ++ ["URL is required"] else errors in
  let errors :=
    if requests config <=? 0
    then errors ++ ["Requests must be greater than 0"] else errors in
  let errors :=
    if concurrency config <=? 0
    then errors ++ ["Level concurrency must be greater than 0"] else errors in
  let errors :=
    if requests config <? concurrency config
    then errors ++ ["Level concurrency must be less than or equal to requests"]
    else errors in
  let errors :=
    if bool_decide (method config = Some POST) && negb (truthy_str (dataBody config))
    then errors ++ ["POST method requires data in dataBody"] else errors in
  let errors :=
    if bool_decide (method config = Some PUT) && negb (truthy_str (dataBody config))
    then errors ++ ["PUT method requires data in dataBody"] else errors in
  let errors :=
    if URL_parses (url config) then errors else errors ++ ["Invalid URL"] in
  errors.

(** *** transformDataBody

    [dataBody] is the string of the configuration, so only the string
    branch of the source is reachable. *)

Definition stringify_or_String (parsedData : JsVal) : string :=
  if js_is_object parsedData then JSON_stringify parsedData else js_String parsedData.

Definition transformDataBody (dataBody : string) (contentType : option string)
  : Exc string :=
  let parsed :=
    match JSON_parse dataBody with
    | Some v => Some v
    | None => js_eval ("(" +:+ dataBody +:+ ")")
    end in
  match parsed with
  | None => Ret dataBody
  | Some parsedData =>
      if negb (truthy_str contentType) then Ret (stringify_or_String parsedData)
      else
        let normalizedContentType := toLowerCase (default "" contentType) in
        if includes normalizedContentType "application/x-www-form-urlencoded" then
          entries ←! js_entries parsedData;
          Ret (URLSearchParams_toString
                 (map (λ kv, (fst kv, js_String (snd kv))) entries))
        else if includes normalizedContentType "application/json" then
          Ret (JSON_stringify parsedData)
        else if includes normalizedContentType "multipart/form-data" then
          Ret (JSON_stringify parsedData)
        else Ret (stringify_or_String parsedData)
  end.

(** *** createTempDataFile, cleanupTempDataFile

    The scratch directory is a map from path to content; [now] is the
    reading of [Date.now()]. *)

Definition tempFileName (sessionId : string) (now : Z) : string :=
  tmpdir +:+ "/" +:+ "ab-" +:+ sessionId +:+ "-" +:+ pretty now +:+ ".txt".

Definition createTempDataFile (data sessionId : string) (now : Z)
    (files : gmap string string) : string * gmap string string :=
  let fileName := tempFileName sessionId now in
  (fileName, <[fileName := data]> files).

Definition cleanupTempDataFile (fileName : string) (files : gmap string string)
  : gmap string string :=
  delete fileName files.

(** *** buildCommand *)

Record Command : Type := {
  args : list string;
  dataFile : option string;
}.

Definition entries_args (flag sep : string) (o : option (list (string * string)))
  : list string :=
  match o with
  | Some kvs => concat (map (λ kv, [flag; fst kv +:+ sep +:+ snd kv]) kvs)
  | None => []
  end.

(** The verbosity handed to the tool: [Math.max(config.verbosity ?? 3, 3)]. *)
Definition tool_verbosity (config : ABTestConfig) : Z :=
  Z.max (default 3 (verbosity config)) 3.

(** The arguments pushed before the payload branches. *)
Definition option_args (config : ABTestConfig) : list string :=
  let args := ["ab"] in
  let args := args ++ ["-n"; pretty (requests config)] in
  let args := args ++ ["-c"; pretty (concurrency config)] in
  let args :=
    if truthy_num (timelimit config)
    then args ++ ["-t"; pretty (default 0 (timelimit config))] else args in
  let args := if truthy_flag (keepalive config) then args ++ ["-k"] else args in
  let args :=
    match method config with
    | Some m => if bool_decide (m ≠ GET) then args ++ ["-m"; method_name m] else args
    | None => args
    end in
  let args :=
    if truthy_num (timeout config)
    then args ++ ["-s"; pretty (default 0 (timeout config))] else args in
  let args := args ++ ["-v"; pretty (tool_verbosity config)] in
  let args := if truthy_flag (acceptVaryingLength config) then args ++ ["-l"] else args in
  let args := args ++ entries_args "-H" ": " (headers config) in
  let args := args ++ entries_args "-C" "=" (cookies config) in
  let args :=
    if truthy_str (authUsername config) && truthy_str (authPassword config)
    then args ++ ["-A"; default "" (authUsername config) +:+ ":" +:+ default "" (authPassword config)]
    else args in
  let args :=
    if truthy_str (proxyUrl config)
    then args ++ ["-X"; default "" (proxyUrl config)] else args in
  args.

(** One payload branch: transform the body, write it to a fresh temporary
    file, push [flag] with the file and the content type when there is
    one. *)
Definition payload_branch (flag : string) (config : ABTestConfig)
    (sessionId : string) (now : Z)
    (st : Command * gmap string string) : Exc (Command * gmap string string) :=
  let '(cmd, files) := st in
  transformedData ←! transformDataBody (default "" (dataBody config)) (contentType config);
  let '(file, files) := createTempDataFile transformedData sessionId now files in
  let args := args cmd ++ [flag; file] in
  let args :=
    if truthy_str (contentType config)
    then args ++ ["-T"; default "" (contentType config)] else args in
  Ret ({| args := args; dataFile := Some file |}, files).

Definition buildCommand (config : ABTestConfig) (sessionId : string) (now : Z)
    (files : gmap string string) : Exc (Command * gmap string string) :=
  let st := ({| args := option_args config; dataFile := None |}, files) in
  st ←!
    (if (bool_decide (method config = Some POST) || bool_decide (method config = Some GET))
        && truthy_str (dataBody config)
     then payload_branch "-p" config sessionId now st
     else Ret st);
  st ←!
    (if bool_decide (method config = Some PUT) && truthy_str (dataBody config)
     then payload_branch "-u" config sessionId now st
     else Ret st);
  let '(cmd, files) := st in
  Ret ({| args := args cmd ++ [url config]; dataFile := dataFile cmd |}, files).

End Builder.

(** ** Results

    [Partial<ABTestResult>] and [ABTestResult] are JavaScript objects: maps
    from property name to value.  An absent property is an absent key. *)

Record ErrorSummaryEntry : Type := {
  statusCode : string;
  count : Z;
  message : string;
}.

Section Results.
Context `{Platform}.

Inductive Value : Type :=
  | VUndefined
  | VStr (s : string)
  | VNum (n : jsint)
  | VFloat (x : JsFloat)
  | VCodes (h : list (string * Z))
  | VSummary (l : list ErrorSummaryEntry).

Definition value_truthy (v : Value) : bool :=
  match v with
  | VUndefined => false
  | VStr s => nonempty s
  | VNum n => jsint_truthy n
  | VFloat x => float_truthy x
  | VCodes _ | VSummary _ => true
  end.

(** [o || d] for a property read [o] *)
Definition js_or (o : option Value) (d : Value) : Value :=
  match o with
  | Some v => if value_truthy v then v else d
  | None => d
  end.

(** [o || d] for an optional string *)
Definition str_or (o : option string) (d : string) : string :=
  match o with
  | Some s => if nonempty s then s else d
  | None => d
  end.

(** *** The status-code object

    [statusCodes] is a plain object with string keys.  Its properties are
    enumerated with the array-index keys first, in ascending numeric order,
    then the other keys in order of creation; the list keeps that order. *)

Definition is_array_index (k : string) : bool :=
  match k with
  | EmptyString => false
  | String "0" EmptyString => true
  | String "0" _ => false
  | _ =>
      all_digits k
      && match parseInt k (Some 10) with
         | Int z => z <? 4294967295
         | NaN => false
         end
  end.

Definition index_value (k : string) : Z :=
  match parseInt k (Some 10) with
  | Int z => z
  | NaN => 0
  end.

(** [statusCodes[k] = (statusCodes[k] || 0) + 1] *)
Fixpoint bump (k : string) (h : list (string * Z)) : list (string * Z) :=
  match h with
  | [] => [(k, 0 + 1)]
  | (k', n) :: rest =>
      if decide (k = k') then (k', (if n =? 0 then 0 else n) + 1) :: rest
      else if is_array_index k
              && (negb (is_array_index k') || (index_value k <? index_value k'))
      then (k, 0 + 1) :: h
      else (k', n) :: bump k rest
  end.

(** *** getStatusMessage *)

Definition statusMessages : list (Z * string) :=
  [ (200, "OK"); (201, "Created"); (204, "No Content");
    (301, "Moved Permanently"); (302, "Found"); (304, "Not Modified");
    (400, "Bad Request"); (401, "Unauthorized"); (403, "Forbidden");
    (404, "Not Found"); (405, "Method Not Allowed"); (429, "Too Many Requests");
    (500, "Internal Server Error"); (502, "Bad Gateway");
    (503, "Service Unavailable"); (504, "Gateway Timeout") ].

Definition getStatusMessage (statusCode : Z) : string :=
  match list_find (λ e, fst e = statusCode) statusMessages with
  | Some (_, (_, m)) => m
  | None => "HTTP " +:+ pretty statusCode
  end.

(** *** parseResults *)

(** [trimmed.split(label)[1]] *)
Definition after_label (trimmed label : string) : option string :=
  split trimmed label !! 1%nat.

(** [trimmed.split(label)[1]?.trim()] *)
Definition label_text (trimmed label : string) : option string :=
  trim <$> after_label trimmed label.

(** [trimmed.split(label)[1]?.trim().split(' ')[0]] *)
Definition label_word (trimmed label : string) : option string :=
  (λ t, default "" (head (split t " "))) <$> label_text trimmed label.

Definition opt_str_value (o : option string) : Value :=
  match o with
  | Some s => VStr s
  | None => VUndefined
  end.

(** [parseInt(text || '0')] *)
Definition int_field (trimmed label : string) : Value :=
  VNum (parseInt (str_or (label_text trimmed label) "0") None).

(** [word ? parseInt(word, radix) : 0] *)
Definition int_word_field (trimmed label : string) (radix : option Z) : Value :=
  match label_word trimmed label with
  | Some w => if nonempty w then VNum (parseInt w radix) else VNum (Int 0)
  | None => VNum (Int 0)
  end.

(** [word ? parseFloat(word) : 0] *)
Definition float_field (trimmed label : string) : Value :=
  match label_word trimmed label with
  | Some w => if nonempty w then VFloat (parseFloat w) else VNum (Int 0)
  | None => VNum (Int 0)
  end.

Abbreviation JsObject := (gmap string Value).

Definition scan_status (trimmed : string) (statusCodes : list (string * Z))
  : list (string * Z) :=
  if includes trimmed "HTTP/1." && bool_decide (is_Some (match_http_status trimmed))
  then
    match match_http_status trimmed with
    | Some statusCode => bump statusCode statusCodes
    | None => statusCodes
    end
  else statusCodes.

(** [if (cond) { result.key = v; }] *)
Definition set_if (cond : bool) (key : string) (v : Value) (result : JsObject)
  : JsObject :=
  if cond then <[key := v]> result else result.

Definition on_label (trimmed label key : string) (v : Value) (result : JsObject)
  : JsObject :=
  set_if (includes trimmed label) key v result.

Definition scan_labels (trimmed : string) (result : JsObject) : JsObject :=
  let result :=
    on_label trimmed "Server Software:" "serverSoftware"
      (opt_str_value (label_text trimmed "Server Software:")) result in
  let result :=
    on_label trimmed "Server Hostname:" "serverHostname"
      (VStr (str_or (label_text trimmed "Server Hostname:") "")) result in
  let result :=
    on_label trimmed "Server Port:" "serverPort"
      (int_field trimmed "Server Port:") result in
  let result :=
    on_label trimmed "Document Path:" "documentPath"
      (VStr (str_or (label_text trimmed "Document Path:") "")) result in
  let result :=
    on_label trimmed "Document Length:" "documentLength"
      (int_word_field trimmed "Document Length:" (Some 10)) result in
  let result :=
    on_label trimmed "Concurrency Level:" "concurrencyLevel"
      (int_field trimmed "Concurrency Level:") result in
  let result :=
    on_label trimmed "Time taken for tests:" "timeTaken"
      (float_field trimmed "Time taken for tests:") result in
  let result :=
    on_label trimmed "Complete requests:" "completeRequests"
      (int_field trimmed "Complete requests:") result in
  let result :=
    on_label trimmed "Failed requests:" "failedRequests"
      (int_field trimmed "Failed requests:") result in
  let result :=
    on_label trimmed "Total transferred:" "totalTransferred"
      (int_word_field trimmed "Total transferred:" None) result in
  let result :=
    on_label trimmed "HTML transferred:" "htmlTransferred"
      (int_word_field trimmed "HTML transferred:" None) result in
  let result :=
    on_label trimmed "Requests per second:" "requestsPerSecond"
      (float_field trimmed "Requests per second:") result in
  let result :=
    set_if (includes trimmed "Time per request:"
            && negb (includes trimmed "across all concurrent"))
      "timePerRequest" (float_field trimmed "Time per request:") result in
  let result :=
    set_if (includes trimmed "Time per request:"
            && includes trimmed "across all concurrent")
      "timePerRequestConcurrent" (float_field trimmed "Time per request:") result in
  let result :=
    on_label trimmed "Transfer rate:" "transferRate"
      (float_field trimmed "Transfer rate:") result in
  result.

(** The body of the loop over the lines. *)
Definition parse_line (st : JsObject * list (string * Z)) (line : string)
  : JsObject * list (string * Z) :=
  let trimmed := trim line in
  (scan_labels trimmed (fst st), scan_status trimmed (snd st)).

(** The counters of the response classes and the error summary. *)
Record Categories : Type := {
  successfulRequests : Z;
  clientErrors : Z;
  serverErrors : Z;
  redirects : Z;
  errorSummary : list ErrorSummaryEntry;
}.

Definition summary_entry (code : string) (count statusNum : Z) : ErrorSummaryEntry :=
  {| statusCode := code; count := count; message := getStatusMessage statusNum |}.

Definition categorize (acc : Categories) (entry : string * Z) : Categories :=
  let '(code, count) := entry in
  match parseInt code None with
  | NaN => acc
  | Int statusNum =>
      if (200 <=? statusNum) && (statusNum <? 300) then
        {| successfulRequests := successfulRequests acc + count;
           clientErrors := clientErrors acc;
           serverErrors := serverErrors acc;
           redirects := redirects acc;
           errorSummary := errorSummary acc |}
      else if (300 <=? statusNum) && (statusNum <? 400) then
        {| successfulRequests := successfulRequests acc;
           clientErrors := clientErrors acc;
           serverErrors := serverErrors acc;
           redirects := redirects acc + count;
           errorSummary := errorSummary acc ++ [summary_entry code count statusNum] |}
      else if (400 <=? statusNum) && (statusNum <? 500) then
        {| successfulRequests := successfulRequests acc;
           clientErrors := clientErrors acc + count;
           serverErrors := serverErrors acc;
           redirects := redirects acc;
           errorSummary := errorSummary acc ++ [summary_entry code count statusNum] |}
      else if 500 <=? statusNum then
        {| successfulRequests := successfulRequests acc;
           clientErrors := clientErrors acc;
           serverErrors := serverErrors acc + count;
           redirects := redirects acc;
           errorSummary := errorSummary acc ++ [summary_entry code count statusNum] |}
      else acc
  end.

Definition no_categories : Categories :=
  {| successfulRequests := 0; clientErrors := 0; serverErrors := 0;
     redirects := 0; errorSummary := [] |}.

Definition parseResults (output : string) : JsObject :=
  let lines := split output (String "010" EmptyString) in
  let '(result, statusCodes) := foldl parse_line (∅, []) lines in
  if (0 <? length statusCodes)%nat then
    let result := <["statusCodes" := VCodes statusCodes]> result in
    let cats := foldl categorize no_categories statusCodes in
    let result := <["successfulRequests" := VNum (Int (successfulRequests cats))]> result in
    let result := <["clientErrors" := VNum (Int (clientErrors cats))]> result in
    let result := <["serverErrors" := VNum (Int (serverErrors cats))]> result in
    let result := <["redirects" := VNum (Int (redirects cats))]> result in
    let result := <["errorSummary" := VSummary (errorSummary cats)]> result in
    result
  else result.

(** *** The result object built when the tool exits with code 0 *)

Definition assembleResult (config : ABTestConfig) (parsedResult : JsObject)
  : JsObject :=
  let get (k : string) : option Value := parsedResult !! k in
  parsedResult ∪
  list_to_map
    [ ("serverHostname", js_or (get "serverHostname") (VStr ""));
      ("serverPort", js_or (get "serverPort") (VNum (Int 80)));
      ("documentPath", js_or (get "documentPath") (VStr ""));
      ("concurrencyLevel",
        js_or (get "concurrencyLevel") (VNum (Int (concurrency config))));
      ("timeTaken", js_or (get "timeTaken") (VNum (Int 0)));
      ("completeRequests", js_or (get "completeRequests") (VNum (Int 0)));
      ("failedRequests", js_or (get "failedRequests") (VNum (Int 0)));
      ("totalTransferred", js_or (get "totalTransferred") (VNum (Int 0)));
      ("htmlTransferred", js_or (get "htmlTransferred") (VNum (Int 0)));
      ("requestsPerSecond", js_or (get "requestsPerSecond") (VNum (Int 0)));
      ("timePerRequest", js_or (get "timePerRequest") (VNum (Int 0)));
      ("timePerRequestConcurrent",
        js_or (get "timePerRequestConcurrent") (VNum (Int 0)));
      ("transferRate", js_or (get "transferRate") (VNum (Int 0))) ].

(** [x.toFixed(2)] of a property value; a [TypeError] when [x] is not a
    number. *)
Definition toFixed2_value (o : option Value) : Exc string :=
  match o with
  | Some (VNum (Int z)) => Ret (pretty z +:+ ".00")
  | Some (VNum NaN) => Ret "NaN"
  | Some (VFloat x) => Ret (toFixed2 x)
  | _ => Throw "TypeError: result.requestsPerSecond.toFixed is not a function"
  end.

End Results.

(** ** The runner: processes, shared tables, the trace *)

Inductive LogLevel : Type := info | error | debug.

Global Instance LogLevel_eq_dec : EqDecision LogLevel.
Proof. solve_decision. Defined.

(** What [kill] will meet when it is called on a child process: the signal
    is delivered, the process is already gone, or the call throws. *)
Inductive KillAnswer : Type :=
  | Delivered
  | NoSuchProcess
  | KillThrows (e : string).

(** The part of a [ChildProcess] object the runner reads and writes. *)
Record ChildProcess : Type := {
  pid : option Z;
  killed : bool;
  exitCode : option Z;
  kill_answer : KillAnswer;
}.

Definition set_killed (p : ChildProcess) : ChildProcess :=
  {| pid := pid p; killed := true; exitCode := exitCode p;
     kill_answer := kill_answer p |}.

Definition set_exitCode (code : option Z) (p : ChildProcess) : ChildProcess :=
  {| pid := pid p; killed := killed p; exitCode := code;
     kill_answer := kill_answer p |}.

(** What a callback does to the outside, in program order.  [MarkStopped]
    records the insertion into [stoppedByUser]. *)
Inductive Event : Type :=
  | OnLog (level : LogLevel) (message : string)
  | ConsoleLog (message : string)
  | ConsoleError (message : string)
  | MarkStopped (sessionId : string)
  | Kill (handle : nat) (signal : string)
  | Spawn (handle : nat) (argv : list string)
  | Unlink (fileName : string).

Global Instance Event_eq_dec : EqDecision Event.
Proof. solve_decision. Defined.

Record World : Type := {
  activeProcesses : gmap string nat;
  stoppedByUser : gset string;
  processes : gmap nat ChildProcess;
  files : gmap string string;
  trace : list Event;
}.

Definition emit (e : Event) (w : World) : World :=
  {| activeProcesses := activeProcesses w; stoppedByUser := stoppedByUser w;
     processes := processes w; files := files w; trace := trace w ++ [e] |}.

Definition onLog (level : LogLevel) (message : string) (w : World) : World :=
  emit (OnLog level message) w.

Definition with_activeProcesses (m : gmap string nat) (w : World) : World :=
  {| activeProcesses := m; stoppedByUser := stoppedByUser w;
     processes := processes w; files := files w; trace := trace w |}.

Definition with_stoppedByUser (s : gset string) (w : World) : World :=
  {| activeProcesses := activeProcesses w; stoppedByUser := s;
     processes := processes w; files := files w; trace := trace w |}.

Definition with_processes (m : gmap nat ChildProcess) (w : World) : World :=
  {| activeProcesses := activeProcesses w; stoppedByUser := stoppedByUser w;
     processes := m; files := files w; trace := trace w |}.

Definition with_files (m : gmap string string) (w : World) : World :=
  {| activeProcesses := activeProcesses w; stoppedByUser := stoppedByUser w;
     processes := processes w; files := m; trace := trace w |}.

(** [this.cleanupTempDataFile(dataFile).catch(() => {})] under
    [if (dataFile)] *)
Definition cleanup_if_set (dataFile : option string) (w : World) : World :=
  match dataFile with
  | Some f =>
      if nonempty f
      then with_files (cleanupTempDataFile f (files w)) (emit (Unlink f) w)
      else w
  | None => w
  end.

(** The log events of a trace. *)
Definition logs_of (t : list Event) : list (LogLevel * string) :=
  omap (λ e, match e with OnLog l m => Some (l, m) | _ => None end) t.

(** *** stopTest *)

Definition stopTest (sessionId : string) (w : World) : bool * World :=
  match activeProcesses w !! sessionId with
  | Some h =>
      match processes w !! h with
      | Some process =>
          if negb (killed process) then
            let w := emit (MarkStopped sessionId)
                       (with_stoppedByUser ({[sessionId]} ∪ stoppedByUser w) w) in
            match kill_answer process with
            | KillThrows e =>
                (false,
                 emit (ConsoleError ("Error stopping process for session "
                                     +:+ sessionId +:+ ": " +:+ e)) w)
            | answer =>
                let w := emit (Kill h "SIGKILL") w in
                let w :=
                  match answer with
                  | Delivered => with_processes (<[h := set_killed process]> (processes w)) w
                  | _ => w
                  end in
                let w := emit (ConsoleLog
                  ("Process Apache Benchmark forcibly stopped for session: " +:+ sessionId)) w in
                let w := with_activeProcesses (delete sessionId (activeProcesses w)) w in
                (true, w)
            end
          else (false, w)
      | None => (false, w)
      end
  | None => (false, w)
  end.

(** A session has a live process handle: the condition
    [process && !process.killed]. *)
Definition live (sessionId : string) (w : World) : bool :=
  match activeProcesses w !! sessionId with
  | Some h =>
      match processes w !! h with
      | Some process => negb (killed process)
      | None => false
      end
  | None => false
  end.

(** *** isIgnorableDebugMessage *)

Definition ignorablePatterns : list string :=
  [ "SSL/TLS Handshake"; "SSL/TLS State"; "SSL/TLS"; "SSLv3/TLS write";
    "SSLv3/TLS read"; "TLSv1.3 read"; "TLSv1.2 read"; "TLSv1.1 read";
    "read server certificate"; "read encrypted extensions";
    "read server certificate verify"; "read finished"; "write client hello";
    "before SSL initialization"; "before SSL/TLS connection";
    "after SSL/TLS connection"; "SSL-Session:"; "Session-ID:";
    "Session-ID-ctx:"; "Protocol :"; "Transport Protocol :";
    "Max Early Data:"; "Extended master secret:"; "Verify return code:";
    "Timeout :"; "Start Time:"; "Cipher :"; "Cipher Suite"; "Cipher Bits:";
    "Resumption PSK:"; "PSK identity:"; "PSK identity hint:"; "SRP username:";
    "Key-Arg   :"; "TLS session ticket"; "Compression:"; "Expansion:"; "SSL" ].

Definition isIgnorableDebugMessage (message : string) : bool :=
  existsb (λ pattern, includes message pattern) ignorablePatterns.

(** *** One run of runTest

    The variables captured by the callbacks of a run, and the state of the
    promise it returned. *)

Section Run.
Context `{Platform}.

Record PendingJson : Type := {
  pj_status : JsVal;
  pj_code : JsVal;
  pj_message : JsVal;
  pj_statusCode : JsVal;
}.

Inductive Settlement : Type :=
  | Resolved (result : option (gmap string Value))
  | Rejected (reason : string).

Record Run : Type := {
  run_config : ABTestConfig;
  run_sessionId : string;
  run_dataFile : option string;
  run_verbosity : Z;
  abProcess : nat;
  output : string;
  errorOutput : string;
  responseCount : Z;
  pendingJsonResponse : option PendingJson;
  progressInterval : bool;
  stdoutReader : bool;
  settled : option Settlement;
}.

Definition with_output (s : string) (r : Run) : Run :=
  {| run_config := run_config r; run_sessionId := run_sessionId r;
     run_dataFile := run_dataFile r; run_verbosity := run_verbosity r;
     abProcess := abProcess r; output := s; errorOutput := errorOutput r;
     responseCount := responseCount r;
     pendingJsonResponse := pendingJsonResponse r;
     progressInterval := progressInterval r; stdoutReader := stdoutReader r;
     settled := settled r |}.

Definition with_errorOutput (s : string) (r : Run) : Run :=
  {| run_config := run_config r; run_sessionId := run_sessionId r;
     run_dataFile := run_dataFile r; run_verbosity := run_verbosity r;
     abProcess := abProcess r; output := output r; errorOutput := s;
     responseCount := responseCount r;
     pendingJsonResponse := pendingJsonResponse r;
     progressInterval := progressInterval r; stdoutReader := stdoutReader r;
     settled := settled r |}.

Definition with_responseCount (n : Z) (r : Run) : Run :=
  {| run_config := run_config r; run_sessionId := run_sessionId r;
     run_dataFile := run_dataFile r; run_verbosity := run_verbosity r;
     abProcess := abProcess r; output := output r; errorOutput := errorOutput r;
     responseCount := n;
     pendingJsonResponse := pendingJsonResponse r;
     progressInterval := progressInterval r; stdoutReader := stdoutReader r;
     settled := settled r |}.

Definition with_pending (p : option PendingJson) (r : Run) : Run :=
  {| run_config := run_config r; run_sessionId := run_sessionId r;
     run_dataFile := run_dataFile r; run_verbosity := run_verbosity r;
     abProcess := abProcess r; output := output r; errorOutput := errorOutput r;
     responseCount := responseCount r;
     pendingJsonResponse := p;
     progressInterval := progressInterval r; stdoutReader := stdoutReader r;
     settled := settled r |}.

(** [clearInterval(progressInterval); stdoutReader.close();
    pendingJsonResponse = null] *)
Definition shut_down (r : Run) : Run :=
  {| run_config := run_config r; run_sessionId := run_sessionId r;
     run_dataFile := run_dataFile r; run_verbosity := run_verbosity r;
     abProcess := abProcess r; output := output r; errorOutput := errorOutput r;
     responseCount := responseCount r;
     pendingJsonResponse := None;
     progressInterval := false; stdoutReader := false;
     settled := settled r |}.

(** [resolve] and [reject]: only the first settlement of a promise counts. *)
Definition settle (s : Settlement) (r : Run) : Run :=
  {| run_config := run_config r; run_sessionId := run_sessionId r;
     run_dataFile := run_dataFile r; run_verbosity := run_verbosity r;
     abProcess := abProcess r; output := output r; errorOutput := errorOutput r;
     responseCount := responseCount r;
     pendingJsonResponse := pendingJsonResponse r;
     progressInterval := progressInterval r; stdoutReader := stdoutReader r;
     settled := match settled r with Some s0 => Some s0 | None => Some s end |}.

(** Numbers inside template literals. *)
Definition jsint_text (n : jsint) : string :=
  match n with
  | NaN => "NaN"
  | Int z => pretty z
  end.

Definition pid_text (o : option Z) : string :=
  match o with
  | Some z => pretty z
  | None => "undefined"
  end.

Definition code_text (o : option Z) : string :=
  match o with
  | Some z => pretty z
  | None => "null"
  end.

Definition js_or_val (a b : JsVal) : JsVal := if js_truthy a then a else b.

Definition LF : string := String "010" EmptyString.

(** *** The line callback of stdout *)

Definition on_json_line (trimmed : string) (r : Run) (w : World) : Run * World :=
  match JSON_parse trimmed with
  | Some parsed =>
      let code :=
        js_or_val (js_or_val (js_get parsed "code") (js_get parsed "statusCode"))
                  (js_of_string "") in
      (with_pending
         (Some {| pj_status := js_or_val (js_get parsed "status") (js_of_string "unknown");
                  pj_code := code;
                  pj_message :=
                    js_or_val (js_get parsed "message") (js_of_string "Unknown error");
                  pj_statusCode :=
                    js_or_val (js_or_val (js_get parsed "statusCode") code) (js_of_Z 0) |})
         r, w)
  | None =>
      (r, onLog debug ("Failed to parse JSON: " +:+ substring0 100 trimmed +:+ "...") w)
  end.

Definition on_warning_line (trimmed : string) (r : Run) (w : World) : Run * World :=
  let r := with_responseCount (responseCount r + 1) r in
  let msg := "⚠️ Request #" +:+ pretty (responseCount r) +:+ ": " in
  let msg :=
    match match_not_2xx trimmed with
    | Some d => msg +:+ "statusCode: " +:+ jsint_text (parseInt d None) +:+ ", "
    | None => msg +:+ "Non-2xx response, "
    end in
  match pendingJsonResponse r with
  | Some pending =>
      let msg :=
        msg +:+ "status: " +:+ js_String (pj_status pending) +:+ "," +:+ LF +:+ LF
            +:+ "              code: " +:+ js_String (pj_code pending) +:+ "," +:+ LF +:+ LF
            +:+ "              message: " +:+ js_String (pj_message pending) in
      let w :=
        if js_ge (pj_statusCode pending) 400 then onLog error msg w
        else if 3 <=? run_verbosity r then onLog debug msg w
        else w in
      (with_pending None r, w)
  | None => (r, onLog error msg w)
  end.

Definition on_response_line (trimmed : string) (r : Run) (w : World) : Run * World :=
  match match_response_code trimmed with
  | Some d =>
      match parseInt d None with
      | Int statusCode =>
          if (200 <=? statusCode) && (statusCode <? 300) then
            let r := with_responseCount (responseCount r + 1) r in
            if responseCount r mod 10 =? 0 then
              (r, onLog debug ("Progress: " +:+ pretty (responseCount r)
                               +:+ " requests completed") w)
            else if 3 <=? run_verbosity r then
              (r, onLog debug ("Request #" +:+ pretty (responseCount r)
                               +:+ ": HTTP " +:+ pretty statusCode) w)
            else (r, w)
          else (r, w)
      | NaN => (r, w)
      end
  | None => (r, w)
  end.

Definition on_stdout_line (line : string) (st : Run * World) : Run * World :=
  let '(r, w) := st in
  if bool_decide (run_sessionId r ∈ stoppedByUser w) then st
  else
    let trimmed := trim line in
    if negb (nonempty trimmed) then st
    else
      let r := with_output (output r +:+ line +:+ LF) r in
      if includes trimmed "Benchmarking" then
        (r, onLog info ("🚀 " +:+ trimmed) w)
      else if startsWith trimmed "{" && endsWith trimmed "}" then
        on_json_line trimmed r w
      else if includes trimmed "WARNING: Response code not 2xx" then
        on_warning_line trimmed r w
      else if includes trimmed "LOG: Response code" then
        on_response_line trimmed r w
      else (r, w).

(** *** The data callback of stderr *)

Definition on_stderr_line (w : World) (line : string) : World :=
  let trimmed := trim line in
  if negb (nonempty trimmed) then w
  else if includes trimmed "Completed" && includes trimmed "requests" then
    match match_completed trimmed with
    | Some n => onLog info ("✅ Finished: " +:+ n +:+ " requests") w
    | None => w
    end
  else if includes trimmed "apr_socket_recv" || includes trimmed "Connection"
          || includes trimmed "Failed" then
    onLog error ("❌ Error: " +:+ trimmed) w
  else if negb (includes trimmed "Finished") && negb (isIgnorableDebugMessage trimmed) then
    onLog debug ("STDERR: " +:+ trimmed) w
  else w.

Definition on_stderr_data (chunk : string) (st : Run * World) : Run * World :=
  let '(r, w) := st in
  if bool_decide (run_sessionId r ∈ stoppedByUser w) then st
  else
    let r := with_errorOutput (errorOutput r +:+ chunk) r in
    let lines := filter (λ line, nonempty (trim line) = true) (split chunk LF) in
    (r, foldl on_stderr_line w lines).

(** *** The tick of the progress timer *)

Definition on_progress_tick (st : Run * World) : Run * World :=
  let '(r, w) := st in
  if bool_decide (run_sessionId r ∉ stoppedByUser w)
     && bool_decide ((processes w !! abProcess r) ≫= exitCode = None)
  then (r, onLog info "⏳ Test is running..." w)
  else st.

(** *** The close callback of the process *)

Definition on_close (code : option Z) (st : Run * World) : Run * World :=
  let '(r, w) := st in
  let r := shut_down r in
  let sessionId := run_sessionId r in
  if bool_decide (sessionId ∈ stoppedByUser w) then
    let w := with_stoppedByUser (stoppedByUser w ∖ {[sessionId]}) w in
    let w := with_activeProcesses (delete sessionId (activeProcesses w)) w in
    let w := onLog info "Test stopped by user" w in
    let w := cleanup_if_set (run_dataFile r) w in
    (settle (Resolved None) r, w)
  else
    let w := with_activeProcesses (delete sessionId (activeProcesses w)) w in
    if negb (bool_decide (code = Some 0)) then
      let error_text :=
        "Apache Benchmark finished with code " +:+ code_text code +:+ ": "
        +:+ errorOutput r in
      let w := onLog error error_text w in
      (settle (Rejected error_text) r, w)
    else
      let parsedResult := parseResults (output r) in
      let result := assembleResult (run_config r) parsedResult in
      let '(r, w) :=
        match toFixed2_value (result !! "requestsPerSecond") with
        | Ret rps =>
            let w := onLog info ("Test completed: " +:+ rps +:+ " RPS") w in
            (settle (Resolved (Some result)) r, w)
        | Throw parseError =>
            let w := onLog error ("Error parsing results: " +:+ parseError) w in
            (settle (Rejected parseError) r, w)
        end in
      (r, cleanup_if_set (run_dataFile r) w).

(** *** The error callback of the process *)

Definition on_error (error_message : string) (st : Run * World) : Run * World :=
  let '(r, w) := st in
  let r := shut_down r in
  let w := onLog error ("Error process: " +:+ error_message) w in
  let w := cleanup_if_set (run_dataFile r) w in
  (settle (Rejected error_message) r, w).

(** *** runTest up to the return of the promise

    [now] is the reading of the clock when the payload file is named and
    [child] the process object [spawn] returns.  The result is the world
    after the call and either the run (the promise is pending) or the
    exception the call ends with. *)

Definition runTest (config : ABTestConfig) (sessionId : string) (now : Z)
    (child : ChildProcess) (w : World) : World * Exc Run :=
  let validationErrors := validateConfig config in
  if (0 <? length validationErrors)%nat then
    (w, Throw ("Validation errors: " +:+ join ", " validationErrors))
  else
    let w := onLog info "Preparing to run Apache Benchmark..." w in
    match buildCommand config sessionId now (files w) with
    | Throw e => (onLog error ("Error start: " +:+ e) w, Throw e)
    | Ret (cmd, files') =>
        let w := with_files files' w in
        let w := onLog info ("Command: " +:+ join " " (args cmd)) w in
        let h := fresh (dom (processes w)) in
        let w := emit (Spawn h (args cmd))
                   (with_processes (<[h := child]> (processes w)) w) in
        let w := onLog info ("🚀 Apache Benchmark started (PID: "
                             +:+ pid_text (pid child) +:+ ")") w in
        let w := with_activeProcesses (<[sessionId := h]> (activeProcesses w)) w in
        let w := onLog info "Apache Benchmark started..." w in
        let w := onLog info ("Running " +:+ pretty (requests config)
                             +:+ " requests with concurrency "
                             +:+ pretty (concurrency config)) w in
        (w, Ret {| run_config := config; run_sessionId := sessionId;
                   run_dataFile := dataFile cmd;
                   run_verbosity := default 2 (verbosity config);
                   abProcess := h; output := ""; errorOutput := "";
                   responseCount := 0; pendingJsonResponse := None;
                   progressInterval := true; stdoutReader := true;
                   settled := None |})
    end.

(** *** The callbacks of a run, as the event loop delivers them *)

Inductive Callback : Type :=
  | StdoutLine (line : string)
  | StderrData (chunk : string)
  | ProgressTick
  | Close (code : option Z)
  | ProcessError (error_message : string).

Definition deliver (st : Run * World) (c : Callback) : Run * World :=
  match c with
  | StdoutLine line => on_stdout_line line st
  | StderrData chunk => on_stderr_data chunk st
  | ProgressTick => on_progress_tick st
  | Close code => on_close code st
  | ProcessError e => on_error e st
  end.

(** The callbacks that consume the streams or the timer, as opposed to the
    two that end the run. *)
Definition is_stream (c : Callback) : bool :=
  match c with
  | StdoutLine _ | StderrData _ | ProgressTick => true
  | Close _ | ProcessError _ => false
  end.

End Run.

(** ** The session store: addLogToSession *)

Definition MAX_LOGS_PER_SESSION : nat := 500.

Module LogEntry.
Record t : Type := {
  timestamp : Z;
  level : LogLevel;
  message : string;
}.
End LogEntry.

Module TestStatus.
Inductive t : Type := preparing | running | completed | stopped | error.
End TestStatus.

(** A subscriber connection: whether it is open, and whether [send] fails
    on it. *)
Record WebSocket : Type := {
  readyState_open : bool;
  send_throws : bool;
}.

(** What [broadcastToSession] does for a log message. *)
Inductive Broadcast : Type :=
  | Sent (sessionId : string) (data : LogEntry.t)
  | SendFailed (sessionId : string)
  | NoClient (sessionId : string).

(** [xs.slice(-n)] *)
Definition slice_last {A} (n : nat) (xs : list A) : list A :=
  drop (length xs - n) xs.

Module TestSession.
Record t `{Platform} : Type := {
  id : string;
  config : ABTestConfig;
  status : TestStatus.t;
  startTime : Z;
  endTime : option Z;
  result : option (gmap string Value);
  logs : list LogEntry.t;
}.

Definition with_logs `{Platform} (l : list LogEntry.t) (session : t) : t :=
  {| id := id session; config := config session; status := status session;
     startTime := startTime session; endTime := endTime session;
     result := result session; logs := l |}.
End TestSession.

Section Store.
Context `{Platform}.

Record Server : Type := {
  sessions : gmap string TestSession.t;
  websocketClients : gmap string WebSocket;
  outbox : list Broadcast;
}.

(** [broadcastToSession] for a message of type [log]; what reaches the
    console or the client is appended to [outbox]. *)
Definition broadcastToSession (sessionId : string) (data : LogEntry.t)
    (srv : Server) : Server :=
  let note :=
    match websocketClients srv !! sessionId with
    | Some client =>
        if readyState_open client then
          if send_throws client then SendFailed sessionId else Sent sessionId data
        else NoClient sessionId
    | None => NoClient sessionId
    end in
  {| sessions := sessions srv; websocketClients := websocketClients srv;
     outbox := outbox srv ++ [note] |}.

(** [addLogToSession]; [now] is the reading of the clock. *)
Definition addLogToSession (sessionId : string) (level : LogLevel)
    (message : string) (now : Z) (srv : Server) : Server :=
  match sessions srv !! sessionId with
  | Some session =>
      let logEntry :=
        {| LogEntry.timestamp := now; LogEntry.level := level;
           LogEntry.message := message |} in
      let logs := TestSession.logs session ++ [logEntry] in
      let logs :=
        if (MAX_LOGS_PER_SESSION <? length logs)%nat
        then slice_last MAX_LOGS_PER_SESSION logs else logs in
      let srv :=
        {| sessions := <[sessionId := TestSession.with_logs logs session]> (sessions srv);
           websocketClients := websocketClients srv; outbox := outbox srv |} in
      broadcastToSession sessionId logEntry srv
  | None => srv
  end.

(** A call of [addLogToSession]: its arguments and the clock reading. *)
Record Append : Type := {
  ap_session : string;
  ap_level : LogLevel;
  ap_message : string;
  ap_now : Z;
}.

Definition append_entry (a : Append) : LogEntry.t :=
  {| LogEntry.timestamp := ap_now a; LogEntry.level := ap_level a;
     LogEntry.message := ap_message a |}.

Definition appendLog (srv : Server) (a : Append) : Server :=
  addLogToSession (ap_session a) (ap_level a) (ap_message a) (ap_now a) srv.

(** The log buffer of a session, empty when there is no such session. *)
Definition logs_of_session (sessionId : string) (srv : Server) : list LogEntry.t :=
  match sessions srv !! sessionId with
  | Some session => TestSession.logs session
  | None => []
  end.

End Store.

(** ** A platform to run the model on

    Floating point numbers are kept as the text they are read from; the
    JSON reader accepts nothing, so that every structured line counts as
    unparseable. *)

Definition text_platform : Platform := {|
  JsVal := string;
  JSON_parse := λ _, None;
  js_eval := λ _, None;
  JSON_stringify := λ v, v;
  js_String := λ v, v;
  js_is_object := λ _, false;
  js_entries := λ _, Ret [];
  js_get := λ _ _, "";
  js_truthy := nonempty;
  js_of_string := λ s, s;
  js_of_Z := λ z, pretty z;
  js_ge := λ v n, match parseInt v (Some 10) with Int z => n <=? z | NaN => false end;
  URLSearchParams_toString := λ kvs, join "&" (map (λ kv, fst kv +:+ "=" +:+ snd kv) kvs);
  URL_parses := λ s, startsWith s "http://" || startsWith s "https://";
  JsFloat := string;
  parseFloat := λ s, s;
  float_truthy := nonempty;
  toFixed2 := λ s, s;
  tmpdir := "/tmp";
|}.

(** ** Vocabulary of the properties *)

Section Vocabulary.
Context `{Platform}.

(** The message about the concurrency exceeding the requests. *)
Definition concurrency_exceeds_requests : string :=
  "Level concurrency must be less than or equal to requests".

(** What [option_args] pushes before and after the verbosity: *)
Definition args_before_verbosity (config : ABTestConfig) : list string :=
  ["ab"; "-n"; pretty (requests config); "-c"; pretty (concurrency config)]
  ++ (if truthy_num (timelimit config)
      then ["-t"; pretty (default 0 (timelimit config))] else [])
  ++ (if truthy_flag (keepalive config) then ["-k"] else [])
  ++ match method config with
     | Some m => if bool_decide (m ≠ GET) then ["-m"; method_name m] else []
     | None => []
     end
  ++ (if truthy_num (timeout config)
      then ["-s"; pretty (default 0 (timeout config))] else []).

Definition args_after_verbosity (config : ABTestConfig) : list string :=
  (if truthy_flag (acceptVaryingLength config) then ["-l"] else [])
  ++ entries_args "-H" ": " (headers config)
  ++ entries_args "-C" "=" (cookies config)
  ++ (if truthy_str (authUsername config) && truthy_str (authPassword config)
      then ["-A"; default "" (authUsername config) +:+ ":"
                  +:+ default "" (authPassword config)]
      else [])
  ++ (if truthy_str (proxyUrl config)
      then ["-X"; default "" (proxyUrl config)] else []).

(** The flag of the payload branch a configuration takes, if any. *)
Definition payload_flag (config : ABTestConfig) : option string :=
  if truthy_str (dataBody config) then
    match method config with
    | Some POST | Some GET => Some "-p"
    | Some PUT => Some "-u"
    | _ => None
    end
  else None.

Definition content_type_args (config : ABTestConfig) : list string :=
  if truthy_str (contentType config)
  then ["-T"; default "" (contentType config)] else [].

Definition with_method (m : option Method) (config : ABTestConfig) : ABTestConfig :=
  {| url := url config; requests := requests config;
     concurrency := concurrency config; timelimit := timelimit config;
     keepalive := keepalive config; method := m; headers := headers config;
     cookies := cookies config; dataBody := dataBody config;
     contentType := contentType config; timeout := timeout config;
     verbosity := verbosity config; authUsername := authUsername config;
     authPassword := authPassword config; proxyUrl := proxyUrl config;
     acceptVaryingLength := acceptVaryingLength config |}.

Definition with_dataBody (b : option string) (config : ABTestConfig) : ABTestConfig :=
  {| url := url config; requests := requests config;
     concurrency := concurrency config; timelimit := timelimit config;
     keepalive := keepalive config; method := method config;
     headers := headers config; cookies := cookies config; dataBody := b;
     contentType := contentType config; timeout := timeout config;
     verbosity := verbosity config; authUsername := authUsername config;
     authPassword := authPassword config; proxyUrl := proxyUrl config;
     acceptVaryingLength := acceptVaryingLength config |}.

(** The properties derived from the status-code object. *)
Definition histogram_fields : list string :=
  [ "statusCodes"; "successfulRequests"; "clientErrors"; "serverErrors";
    "redirects"; "errorSummary" ].

(** A line on which the status-code expression matches. *)
Definition status_line (line : string) : bool :=
  bool_decide (is_Some (match_http_status (trim line))).

(** The transcript of three status lines. *)
Definition three_status_lines : string :=
  "HTTP/1.1 200" +:+ LF +:+ "HTTP/1.1 200" +:+ LF +:+ "HTTP/1.1 404".

(** The number properties whose default is 0. *)
Definition zero_default_fields : list string :=
  [ "timeTaken"; "completeRequests"; "failedRequests"; "totalTransferred";
    "htmlTransferred"; "requestsPerSecond"; "timePerRequest";
    "timePerRequestConcurrent"; "transferRate" ].

(** The number properties outside the histogram. *)
Definition numeric_fields : list string :=
  "serverPort" :: "documentLength" :: "concurrencyLevel" :: zero_default_fields.

Definition is_number (v : Value) : bool :=
  match v with
  | VNum _ | VFloat _ => true
  | _ => false
  end.

(** How often a trace unlinks a file. *)
Definition unlinks (f : string) (t : list Event) : nat :=
  length (filter (λ e, e = Unlink f) t).

(** The entries a sequence of calls appends to one session, in order. *)
Definition entries_for (sessionId : string) (appends : list Append)
  : list LogEntry.t :=
  append_entry <$> filter (λ a, ap_session a = sessionId) appends.

(** What C5 says of the result of the three status lines. *)
Definition three_lines_result (result : gmap string Value) : Prop :=
  result !! "statusCodes" = Some (VCodes [("200", 2); ("404", 1)])
  ∧ result !! "successfulRequests" = Some (VNum (Int 2))
  ∧ result !! "clientErrors" = Some (VNum (Int 1))
  ∧ result !! "serverErrors" = Some (VNum (Int 0))
  ∧ result !! "redirects" = Some (VNum (Int 0))
  ∧ result !! "errorSummary"
    = Some (VSummary [{| statusCode := "404"; count := 1; message := "Not Found" |}]).

(** The result object a run resolves with, if it has resolved with one. *)
Definition resolved_result (r : Run) : option (gmap string Value) :=
  match settled r with
  | Some (Resolved (Some result)) => Some result
  | _ => None
  end.

End Vocabulary.

Arguments unlinks : simpl never.

(** ** Sample inputs

    A configuration, the process [spawn] returns for it, and the state of
    the runner after [runTest] has started a POST run for session [s1] at
    clock reading 17 on [text_platform]. *)

Definition get_config : ABTestConfig :=
  {| url := "http://localhost:8080/"; requests := 10; concurrency := 2;
     timelimit := None; keepalive := None; method := Some GET; headers := None;
     cookies := None; dataBody := None; contentType := None; timeout := None;
     verbosity := Some 1; authUsername := None; authPassword := None;
     proxyUrl := None; acceptVaryingLength := None |}.

Definition get_body_config : ABTestConfig :=
  with_dataBody (Some "name=ab") get_config.

Definition post_config : ABTestConfig :=
  with_method (Some POST) get_body_config.

(** More concurrency than requests. *)
Definition overcommitted_config : ABTestConfig :=
  {| url := "http://localhost:8080/"; requests := 10; concurrency := 20;
     timelimit := None; keepalive := None; method := Some GET; headers := None;
     cookies := None; dataBody := None; contentType := None; timeout := None;
     verbosity := None; authUsername := None; authPassword := None;
     proxyUrl := None; acceptVaryingLength := None |}.

Definition child_4242 : ChildProcess :=
  {| pid := Some 4242; killed := false; exitCode := None;
     kill_answer := Delivered |}.

Definition idle_world : World :=
  {| activeProcesses := ∅; stoppedByUser := ∅; processes := ∅; files := ∅;
     trace := [] |}.

Definition started_world : World :=
  (@runTest text_platform post_config "s1" 17 child_4242 idle_world).1.

Definition started_run : @Run text_platform :=
  {| run_config := post_config; run_sessionId := "s1";
     run_dataFile := Some "/tmp/ab-s1-17.txt"; run_verbosity := 1;
     abProcess := 0%nat; output := ""; errorOutput := ""; responseCount := 0;
     pendingJsonResponse := None; progressInterval := true;
     stdoutReader := true; settled := None |}.

Definition stopped_world : World := (stopTest "s1" started_world).2.

(** Callbacks that would log if the run were not stopped. *)
Definition noisy_callbacks : list Callback :=
  [ StdoutLine "Benchmarking localhost (be patient)";
    StdoutLine "WARNING: Response code not 2xx (500)";
    StderrData "Completed 100 requests";
    ProgressTick ].

(** A session with an empty buffer, and 502 calls appending to it. *)
Definition fresh_server : @Server text_platform :=
  {| sessions :=
       {[ "s1" := {| TestSession.id := "s1"; TestSession.config := get_config;
                     TestSession.status := TestStatus.running;
                     TestSession.startTime := 17; TestSession.endTime := None;
                     TestSession.result := None; TestSession.logs := [] |} ]};
     websocketClients := ∅; outbox := [] |}.

Definition many_appends : list Append :=
  (λ n, {| ap_session := "s1"; ap_level := info; ap_message := pretty n;
           ap_now := 17 + Z.of_nat n |}) <$> seq 0 502.


(** ** Further vocabulary: totals of the status-code object, label rules *)

(** The sum of the counts of a status-code object. *)
Definition total_count (h : list (string * Z)) : Z :=
  foldr (λ e acc, e.2 + acc) 0 h.

(** The number a status key stands for ([parseInt(code)], 0 for [NaN]). *)
Definition code_number (code : string) : Z :=
  match parseInt code None with
  | Int n => n
  | NaN => 0
  end.

(** The condition under which a line sets a labelled property. *)
Definition label_rules : list (string * (string → bool)) :=
  [ ("serverSoftware", λ t, includes t "Server Software:");
    ("serverHostname", λ t, includes t "Server Hostname:");
    ("serverPort", λ t, includes t "Server Port:");
    ("documentPath", λ t, includes t "Document Path:");
    ("documentLength", λ t, includes t "Document Length:");
    ("concurrencyLevel", λ t, includes t "Concurrency Level:");
    ("timeTaken", λ t, includes t "Time taken for tests:");
    ("completeRequests", λ t, includes t "Complete requests:");
    ("failedRequests", λ t, includes t "Failed requests:");
    ("totalTransferred", λ t, includes t "Total transferred:");
    ("htmlTransferred", λ t, includes t "HTML transferred:");
    ("requestsPerSecond", λ t, includes t "Requests per second:");
    ("timePerRequest",
      λ t, includes t "Time per request:" && negb (includes t "across all concurrent"));
    ("timePerRequestConcurrent",
      λ t, includes t "Time per request:" && includes t "across all concurrent");
    ("transferRate", λ t, includes t "Transfer rate:") ].



(** An event of the log sink. *)
Definition is_log (e : Event) : bool :=
  match e with
  | OnLog _ _ => true
  | _ => false
  end.

(** The bound on the log events of one stream callback: one per line. *)
Definition line_count (c : Callback) : nat :=
  match c with
  | StderrData chunk => length (split chunk LF)
  | _ => 1
  end.

(** A world that differs from [w] only by events appended to the trace. *)
Definition only_appends (events : list Event) (w w' : World) : Prop :=
  activeProcesses w' = activeProcesses w
  ∧ stoppedByUser w' = stoppedByUser w
  ∧ processes w' = processes w
  ∧ files w' = files w
  ∧ trace w' = trace w ++ events.


(** ** The janitor, the validation endpoint and the deletion of a session *)

Definition SESSION_LIFETIME : Z := 24 * 60 * 60 * 1000.

Global Instance TestStatus_eq_dec : EqDecision TestStatus.t.
Proof. solve_decision. Defined.

Section ServerOperations.
Context `{Platform}.

(** The test [cleanupOldSessions] applies to a session: [isOld ||
    isStaleCompleted]. *)
Definition is_expired (now : Z) (session : TestSession.t) : bool :=
  let sessionAge := now - TestSession.startTime session in
  let isOld := SESSION_LIFETIME <? sessionAge in
  let isStaleCompleted :=
    (bool_decide (TestSession.status session = TestStatus.completed)
     || bool_decide (TestSession.status session = TestStatus.error))
    && (60 * 60 * 1000 <? sessionAge) in
  isOld || isStaleCompleted.

Definition drop_session (srv : Server) (sessionId : string) : Server :=
  {| sessions := delete sessionId (sessions srv);
     websocketClients := delete sessionId (websocketClients srv);
     outbox := outbox srv |}.

(** [cleanupOldSessions]: collect the expired sessions, then delete each
    from the sessions and from the subscribers. *)
Definition cleanupOldSessions (now : Z) (srv : Server) : Server :=
  let sessionsToDelete :=
    fst <$> filter (λ entry, is_expired now entry.2 = true)
              (map_to_list (sessions srv)) in
  foldl drop_session srv sessionsToDelete.


(** The handler of [DELETE /api/sessions/:sessionId]: the HTTP status and
    the server after it. *)
Definition delete_session_endpoint (sessionId : string) (srv : Server)
  : Z * Server :=
  match sessions srv !! sessionId with
  | None => (404, srv)
  | Some _ => (200, drop_session srv sessionId)
  end.

End ServerOperations.

(** ** Further sample inputs *)


(** A registered process on which [kill] throws. *)
Definition stubborn_world : World :=
  {| activeProcesses := {[ "s1" := 0%nat ]};
     stoppedByUser := ∅;
     processes :=
       {[ 0%nat := {| pid := Some 4242; killed := false; exitCode := None;
                      kill_answer := KillThrows "EPERM" |} ]};
     files := ∅; trace := [] |}.


Definition one_append : Append :=
  {| ap_session := "s1"; ap_level := info; ap_message := "hello";
     ap_now := 18 |}.



(** * Properties *)

(** ** Validation *)

Section ValidationProperties.
Context `{Platform}.

(** The errors are the reports of the seven checks, in the order of the
    checks, each present exactly when its check fails. *)
Lemma validateConfig_checks (config : ABTestConfig) :
  validateConfig config =
    (if nonempty (url config) then [] else ["URL is required"])
    ++ (if requests config <=? 0 then ["Requests must be greater than 0"] else [])
    ++ (if concurrency config <=? 0
        then ["Level concurrency must be greater than 0"] else [])
    ++ (if requests config <? concurrency config
        then [concurrency_exceeds_requests] else [])
    ++ (if bool_decide (method config = Some POST) && negb (truthy_str (dataBody config))
        then ["POST method requires data in dataBody"] else [])
    ++ (if bool_decide (method config = Some PUT) && negb (truthy_str (dataBody config))
        then ["PUT method requires data in dataBody"] else [])
    ++ (if URL_parses (url config) then [] else ["Invalid URL"]).
Proof.
  unfold validateConfig.
  destruct (nonempty _), (_ <=? _), (_ <=? _), (_ <? _), (_ && _), (_ && _),
    (URL_parses _); reflexivity.
Qed.

Lemma elem_of_report (b : bool) (x m : string) :
  m ∈ (if b then [x] else []) ↔ m = x ∧ b = true.
Proof.
  destruct b; rewrite ?list_elem_of_singleton, ?elem_of_nil; intuition congruence.
Qed.

Lemma elem_of_report_neg (b : bool) (x m : string) :
  m ∈ (if b then [] else [x]) ↔ m = x ∧ b = false.
Proof.
  destruct b; rewrite ?list_elem_of_singleton, ?elem_of_nil; intuition congruence.
Qed.

Lemma validateConfig_member (config : ABTestConfig) (m : string) :
  m ∈ validateConfig config ↔
    (m = "URL is required" ∧ nonempty (url config) = false)
    ∨ (m = "Requests must be greater than 0" ∧ (requests config <=? 0) = true)
    ∨ (m = "Level concurrency must be greater than 0"
       ∧ (concurrency config <=? 0) = true)
    ∨ (m = concurrency_exceeds_requests
       ∧ (requests config <? concurrency config) = true)
    ∨ (m = "POST method requires data in dataBody"
       ∧ bool_decide (method config = Some POST) && negb (truthy_str (dataBody config)) = true)
    ∨ (m = "PUT method requires data in dataBody"
       ∧ bool_decide (method config = Some PUT) && negb (truthy_str (dataBody config)) = true)
    ∨ (m = "Invalid URL" ∧ URL_parses (url config) = false).
Proof.
  rewrite validateConfig_checks, !elem_of_app, !elem_of_report, !elem_of_report_neg.
  tauto.
Qed.

Lemma nonempty_false (s : string) : nonempty s = false ↔ s = "".
Proof. destruct s; simpl; split; congruence. Qed.

Lemma body_check (m : option Method) (wanted : Method) (body : option string) :
  bool_decide (m = Some wanted) && negb (truthy_str body) = true
  ↔ m = Some wanted ∧ truthy_str body = false.
Proof. by rewrite andb_true_iff, negb_true_iff, bool_decide_eq_true. Qed.

Local Ltac member_cases :=
  rewrite validateConfig_member; unfold concurrency_exceeds_requests;
  split;
  [ intros [[E ?]|[[E ?]|[[E ?]|[[E ?]|[[E ?]|[[E ?]|[E ?]]]]]]];
    try discriminate E; assumption
  | intros ?; auto 10 ].

(** C6. [validateConfig] runs every check and reports every violated
    constraint: each of its seven messages is in the list exactly when the
    constraint it names is violated, no message is reported twice, and when
    the concurrency is greater than the number of requests the list holds
    exactly one error about the concurrency exceeding the requests. *)
Theorem validateConfig_reports_every_violation (config : ABTestConfig) :
  let errors := validateConfig config in
  ("URL is required" ∈ errors ↔ url config = "")
  ∧ ("Requests must be greater than 0" ∈ errors ↔ requests config ≤ 0)
  ∧ ("Level concurrency must be greater than 0" ∈ errors ↔ concurrency config ≤ 0)
  ∧ (concurrency_exceeds_requests ∈ errors ↔ requests config < concurrency config)
  ∧ ("POST method requires data in dataBody" ∈ errors
     ↔ method config = Some POST ∧ truthy_str (dataBody config) = false)
  ∧ ("PUT method requires data in dataBody" ∈ errors
     ↔ method config = Some PUT ∧ truthy_str (dataBody config) = false)
  ∧ ("Invalid URL" ∈ errors ↔ URL_parses (url config) = false)
  ∧ NoDup errors
  ∧ (requests config < concurrency config →
     length (filter (λ e, e = concurrency_exceeds_requests) errors) = 1%nat).
Proof.
  cbv zeta. repeat match goal with |- _ ∧ _ => apply conj end.
  - rewrite <- nonempty_false. member_cases.
  - rewrite <- Z.leb_le. member_cases.
  - rewrite <- Z.leb_le. member_cases.
  - rewrite <- Z.ltb_lt. member_cases.
  - rewrite <- body_check. member_cases.
  - rewrite <- body_check. member_cases.
  - member_cases.
  - rewrite validateConfig_checks.
    destruct (nonempty _), (_ <=? _), (_ <=? _), (_ <? _), (_ && _), (_ && _),
      (URL_parses _);
      apply (bool_decide_unpack _); vm_compute; exact I.
  - intros Hlt. apply Z.ltb_lt in Hlt. rewrite validateConfig_checks, Hlt.
    destruct (nonempty _), (_ <=? _), (_ <=? _), (_ && _), (_ && _),
      (URL_parses _); vm_compute; reflexivity.
Qed.

End ValidationProperties.

(** ** The command builder *)

Section BuilderProperties.
Context `{Platform}.

Lemma push_if {A} (b : bool) (l extra : list A) :
  (if b then l ++ extra else l) = l ++ (if b then extra else []).
Proof. destruct b; [reflexivity | by rewrite app_nil_r]. Qed.

Lemma pretty_N_char_digit (n : N) : is_digit (pretty_N_char n) = true.
Proof. unfold pretty_N_char. repeat case_match; reflexivity. Qed.

(** The decimal text of a number is not the verbosity flag. *)
Lemma pretty_N_go_not_v (x : N) (s : string) :
  s ≠ "v" → pretty_N_go x s ≠ "v".
Proof.
  revert s. induction (N.lt_wf_0 x) as [x _ IH]; intros s Hs.
  destruct (decide (x = 0)%N) as [->|Hx]; [by rewrite pretty_N_go_0|].
  rewrite pretty_N_go_step by lia. apply IH.
  - apply N.div_lt; lia.
  - intros E. injection E as E _.
    pose proof (pretty_N_char_digit (x `mod` 10)) as Hd.
    rewrite E in Hd. discriminate Hd.
Qed.

Lemma pretty_Z_not_flag (z : Z) : pretty z ≠ "-v".
Proof.
  destruct z as [|p|p]; unfold pretty, pretty_Z; [discriminate| |].
  - unfold pretty, pretty_positive, pretty, pretty_N.
    case_decide; [discriminate|]. by apply (pretty_N_go_ne_dash _ _ "v").
  - change ("-" +:+ ?s) with (String "-" s). intros E. injection E as E.
    revert E. unfold pretty, pretty_positive, pretty, pretty_N.
    case_decide; [discriminate|]. by apply pretty_N_go_not_v.
Qed.

Lemma option_args_verbosity (config : ABTestConfig) :
  option_args config =
    args_before_verbosity config
    ++ ["-v"; pretty (tool_verbosity config)]
    ++ args_after_verbosity config.
Proof.
  unfold option_args, args_before_verbosity, args_after_verbosity.
  rewrite !push_if.
  destruct (method config) as [m|]; [rewrite push_if|];
    rewrite <- ?app_assoc, ?app_nil_r; reflexivity.
Qed.

Lemma no_flag_before_verbosity (config : ABTestConfig) :
  "-v" ∉ args_before_verbosity config.
Proof.
  unfold args_before_verbosity.
  pose proof (pretty_Z_not_flag (requests config)).
  pose proof (pretty_Z_not_flag (concurrency config)).
  pose proof (pretty_Z_not_flag (default 0 (timelimit config))).
  pose proof (pretty_Z_not_flag (default 0 (timeout config))).
  destruct (truthy_num (timelimit config)), (truthy_flag _),
    (method config) as [[]|], (truthy_num (timeout config)); simpl;
    rewrite ?elem_of_cons, ?elem_of_nil;
    intros E; repeat destruct E as [E|E]; try discriminate E; congruence.
Qed.

(** [buildCommand] branch by branch. *)
Lemma buildCommand_cases (config : ABTestConfig) (sessionId : string) (now : Z)
    (files : gmap string string) :
  buildCommand config sessionId now files =
    match payload_flag config with
    | Some flag =>
        data ←! transformDataBody (default "" (dataBody config)) (contentType config);
        Ret ({| args := option_args config
                        ++ [flag; tempFileName sessionId now]
                        ++ content_type_args config ++ [url config];
                dataFile := Some (tempFileName sessionId now) |},
             <[tempFileName sessionId now := data]> files)
    | None =>
        Ret ({| args := option_args config ++ [url config]; dataFile := None |},
             files)
    end.
Proof.
  unfold buildCommand, payload_flag, payload_branch, content_type_args,
    createTempDataFile.
  destruct (truthy_str (dataBody config));
    [|by destruct (method config) as [[]|]; simpl; rewrite ?andb_false_r].
  destruct (method config) as [[]|]; simpl; try reflexivity;
    destruct (transformDataBody _ _); simpl; try reflexivity;
    destruct (truthy_str (contentType config)); simpl;
    rewrite <- ?app_assoc; reflexivity.
Qed.

(** C7. Whatever the configuration and the verbosity the caller asked for
    (also none), the value that follows the verbosity flag in the argument
    vector [buildCommand] builds is at least 3, and it is not below the
    value asked for: a request below 3 is raised to 3. *)
Theorem buildCommand_verbosity_at_least_3 (config : ABTestConfig)
    (sessionId : string) (now : Z) (files files' : gmap string string)
    (cmd : Command) :
  buildCommand config sessionId now files = Ret (cmd, files') →
  ∃ before after v,
    args cmd = before ++ ["-v"; pretty v] ++ after
    ∧ ("-v" ∉ before)
    ∧ 3 ≤ v
    ∧ (verbosity config = None → v = 3)
    ∧ (∀ requested, verbosity config = Some requested →
         requested ≤ v ∧ (requested < 3 → v = 3)).
Proof.
  intros Hbuild. rewrite buildCommand_cases in Hbuild.
  assert (∃ rest, args cmd = option_args config ++ rest) as [rest Hargs].
  { destruct (payload_flag config).
    - destruct (transformDataBody _ _); simpl in Hbuild; [|discriminate].
      injection Hbuild as <- _. eexists. reflexivity.
    - injection Hbuild as <- _. eexists. reflexivity. }
  exists (args_before_verbosity config),
    (args_after_verbosity config ++ rest), (tool_verbosity config).
  split; [|split; [apply no_flag_before_verbosity|]].
  - rewrite Hargs, option_args_verbosity, <- !app_assoc. reflexivity.
  - unfold tool_verbosity.
    split; [lia|]. split; [intros ->; reflexivity|].
    intros requested ->. simpl. lia.
Qed.

(** C10. For a configuration with method GET and a non-empty body,
    [buildCommand] transforms the body, writes it to the temporary payload
    file and pushes [-p] with the file, then [-T] with the content type when
    there is one, before the URL; with the method set to POST the payload
    arguments, the file and its content are the same.  Validation reports
    no body requirement for GET and does not look at the body at all. *)
Theorem buildCommand_GET_payload_like_POST (config : ABTestConfig)
    (sessionId : string) (now : Z) (files : gmap string string) :
  method config = Some GET →
  truthy_str (dataBody config) = true →
  let file := tempFileName sessionId now in
  let payload := ["-p"; file] ++ content_type_args config ++ [url config] in
  let built (c : ABTestConfig) :=
    data ←! transformDataBody (default "" (dataBody config)) (contentType config);
    Ret ({| args := option_args c ++ payload; dataFile := Some file |},
         <[file := data]> files) in
  buildCommand config sessionId now files = built config
  ∧ buildCommand (with_method (Some POST) config) sessionId now files
    = built (with_method (Some POST) config)
  ∧ ("POST method requires data in dataBody" ∉ validateConfig config)
  ∧ ("PUT method requires data in dataBody" ∉ validateConfig config)
  ∧ ∀ body, validateConfig (with_dataBody body config) = validateConfig config.
Proof.
  intros Hget Hbody. cbv zeta.
  split; [|split; [|split; [|split]]].
  - rewrite buildCommand_cases. unfold payload_flag. by rewrite Hbody, Hget.
  - rewrite buildCommand_cases. unfold payload_flag. simpl. by rewrite Hbody.
  - rewrite validateConfig_member, Hget. unfold concurrency_exceeds_requests.
    intros [[E ?]|[[E ?]|[[E ?]|[[E ?]|[[E ?]|[[E ?]|[E ?]]]]]]];
      discriminate.
  - rewrite validateConfig_member, Hget. unfold concurrency_exceeds_requests.
    intros [[E ?]|[[E ?]|[[E ?]|[[E ?]|[[E ?]|[[E ?]|[E ?]]]]]]];
      discriminate.
  - intros body. unfold validateConfig. simpl. rewrite Hget. reflexivity.
Qed.

End BuilderProperties.

(** ** The result parser *)

Section ResultProperties.
Context `{Platform}.

Lemma strip_prefix_startsWith (pat s rest : string) :
  strip_prefix pat s = Some rest → startsWith s pat = true.
Proof.
  revert s. induction pat as [|p pat IH]; intros [|c s]; simpl; try done.
  case_decide; [apply IH | done].
Qed.

Lemma match_http_status_includes (s code : string) :
  match_http_status s = Some code → includes s "HTTP/1." = true.
Proof.
  unfold match_http_status.
  induction s as [|c s IH]; cbn [scan includes].
  - unfold http_status_at. simpl. discriminate.
  - destruct (http_status_at (String c s)) eqn:Hat.
    + intros _. apply orb_true_iff. left.
      unfold http_status_at in Hat.
      destruct (strip_prefix "HTTP/1." (String c s)) eqn:Hstrip; [|discriminate].
      by apply strip_prefix_startsWith in Hstrip.
    + intros Hscan. apply orb_true_iff. right. by apply IH.
Qed.

(** The guard of the status scan adds nothing to the expression. *)
Lemma scan_status_match (trimmed : string) (statusCodes : list (string * Z)) :
  scan_status trimmed statusCodes =
    match match_http_status trimmed with
    | Some statusCode => bump statusCode statusCodes
    | None => statusCodes
    end.
Proof.
  unfold scan_status.
  destruct (match_http_status trimmed) eqn:Hm.
  - by rewrite (match_http_status_includes _ _ Hm), bool_decide_true.
  - by destruct (_ && _).
Qed.

Lemma bump_not_nil (k : string) (h : list (string * Z)) : bump k h ≠ [].
Proof. destruct h as [|[k' n] h]; simpl; [done|]. by repeat case_match. Qed.

Lemma set_if_other (b : bool) (key k : string) (v : Value)
    (r : gmap string Value) :
  key ≠ k → set_if b key v r !! k = r !! k.
Proof. intros. destruct b; [by apply lookup_insert_ne | done]. Qed.

Lemma scan_labels_histogram (trimmed k : string) (r : gmap string Value) :
  k ∈ histogram_fields → scan_labels trimmed r !! k = r !! k.
Proof.
  intros Hk. unfold histogram_fields in Hk.
  repeat (apply elem_of_cons in Hk as [->|Hk]); [..|by apply elem_of_nil in Hk];
    unfold scan_labels, on_label; cbv zeta;
    rewrite !set_if_other by discriminate; reflexivity.
Qed.

(** The lines leave the histogram properties alone, and the status-code
    object is empty exactly as long as no line is a status line. *)
Lemma parse_lines_histogram (lines : list string) (r : gmap string Value)
    (codes : list (string * Z)) (k : string) :
  k ∈ histogram_fields →
  (foldl parse_line (r, codes) lines).1 !! k = r !! k.
Proof.
  intros Hk. revert r codes.
  induction lines as [|line lines IH]; intros r codes; [done|].
  cbn [foldl]. unfold parse_line at 2. cbn [fst snd].
  by rewrite IH, scan_labels_histogram.
Qed.

Lemma parse_lines_codes (lines : list string) (r : gmap string Value)
    (codes : list (string * Z)) :
  (foldl parse_line (r, codes) lines).2 = []
  ↔ codes = [] ∧ Forall (λ line, status_line line = false) lines.
Proof.
  revert r codes.
  induction lines as [|line lines IH]; intros r codes.
  - cbn. split; [intros ->; by split | by intros [-> _]].
  - cbn [foldl]. unfold parse_line at 2. cbn [fst snd].
    rewrite IH, scan_status_match, Forall_cons. unfold status_line.
    destruct (match_http_status (trim line)) as [code|].
    + rewrite bool_decide_true by eauto.
      split; [intros [E _]; by apply bump_not_nil in E | intros [_ [? _]]; done].
    + rewrite bool_decide_false by (by intros [? ?]). tauto.
Qed.

(** C4. When the status-code expression matches on no line of the text,
    [parseResults] leaves [statusCodes], [successfulRequests],
    [clientErrors], [serverErrors], [redirects] and [errorSummary] absent;
    when it matches on at least one line, all six are present. *)
Theorem parseResults_histogram_fields (output : string) :
  let lines := split output (String "010" EmptyString) in
  (Forall (λ line, status_line line = false) lines →
     Forall (λ k, parseResults output !! k = None) histogram_fields)
  ∧ (Exists (λ line, status_line line = true) lines →
     Forall (λ k, is_Some (parseResults output !! k)) histogram_fields).
Proof.
  cbv zeta. unfold parseResults.
  pose proof (parse_lines_codes (split output (String "010" EmptyString)) ∅ [])
    as Hcodes.
  pose proof (λ k, parse_lines_histogram
                     (split output (String "010" EmptyString)) ∅ [] k) as Hkeep.
  destruct (foldl parse_line _ _) as [result statusCodes]. cbn [fst snd] in *.
  split.
  - intros Hnone.
    assert (statusCodes = []) as -> by (apply Hcodes; by split).
    cbn. apply Forall_forall. intros k Hk. by rewrite Hkeep.
  - intros Hsome.
    destruct statusCodes as [|entry statusCodes].
    { destruct Hcodes as [[_ Hall] _]; [done|].
      apply Exists_exists in Hsome as (line & Hin & Hline).
      rewrite Forall_forall in Hall. specialize (Hall line Hin). congruence. }
    cbn [length Nat.ltb Nat.leb]. unfold histogram_fields.
    repeat apply Forall_cons_2; [..|apply Forall_nil_2];
      repeat (rewrite lookup_insert_ne by discriminate);
      rewrite lookup_insert_eq; eauto.
Qed.

(** C5. For the transcript of the three lines [HTTP/1.1 200],
    [HTTP/1.1 200], [HTTP/1.1 404] (with or without a final line break)
    [parseResults] returns the status-code object mapping 200 to 2 and 404
    to 1, two successful requests, one client error, and the server errors
    present with value 0. *)
Theorem parseResults_three_status_lines :
  three_lines_result (parseResults three_status_lines)
  ∧ three_lines_result (parseResults (three_status_lines +:+ LF)).
Proof. split; vm_compute; repeat split. Qed.

End ResultProperties.

(** ** The result object of a successful run *)

Section AssemblyProperties.
Context `{Platform}.

Local Ltac lookup_literal :=
  cbn [list_to_map foldr fst snd uncurry];
  repeat (rewrite lookup_insert_ne by discriminate);
  first [rewrite lookup_insert_eq | rewrite lookup_empty].

(** A property with a default: the parsed value when parsing set it (the
    spread overrides the default also when the value is falsy), the default
    otherwise. *)
Lemma spread_over_default (parsed defaults : gmap string Value) (k : string)
    (d : Value) :
  defaults !! k = Some (js_or (parsed !! k) d) →
  (parsed ∪ defaults) !! k = Some (default d (parsed !! k)).
Proof.
  intros Hd. rewrite lookup_union, Hd. unfold js_or.
  by destruct (parsed !! k).
Qed.

Lemma spread_without_default (parsed defaults : gmap string Value) (k : string) :
  defaults !! k = None → (parsed ∪ defaults) !! k = parsed !! k.
Proof. intros Hd. rewrite lookup_union, Hd. by destruct (parsed !! k). Qed.

Lemma assembleResult_zero_defaults (config : ABTestConfig)
    (parsed : gmap string Value) :
  Forall (λ k, assembleResult config parsed !! k
               = Some (default (VNum (Int 0)) (parsed !! k)))
         zero_default_fields.
Proof.
  unfold zero_default_fields, assembleResult.
  repeat apply Forall_cons_2; [..|apply Forall_nil_2];
    apply spread_over_default; by lookup_literal.
Qed.

Lemma assembleResult_other_defaults (config : ABTestConfig)
    (parsed : gmap string Value) :
  assembleResult config parsed !! "serverPort"
    = Some (default (VNum (Int 80)) (parsed !! "serverPort"))
  ∧ assembleResult config parsed !! "concurrencyLevel"
    = Some (default (VNum (Int (concurrency config))) (parsed !! "concurrencyLevel")).
Proof.
  unfold assembleResult. split; apply spread_over_default; by lookup_literal.
Qed.

Lemma assembleResult_no_default (config : ABTestConfig)
    (parsed : gmap string Value) :
  Forall (λ k, assembleResult config parsed !! k = parsed !! k)
         ("documentLength" :: histogram_fields).
Proof.
  unfold histogram_fields, assembleResult.
  repeat apply Forall_cons_2; [..|apply Forall_nil_2];
    apply spread_without_default; by lookup_literal.
Qed.

(** [requestsPerSecond] is a number whenever parsing sets it, so printing
    it cannot fail. *)
Lemma float_field_number (trimmed label : string) :
  is_number (float_field trimmed label) = true.
Proof. unfold float_field. by repeat case_match. Qed.

Lemma scan_labels_rps (trimmed : string) (r : gmap string Value) :
  (∀ v, r !! "requestsPerSecond" = Some v → is_number v = true) →
  ∀ v, scan_labels trimmed r !! "requestsPerSecond" = Some v → is_number v = true.
Proof.
  intros Hr v. unfold scan_labels, on_label; cbv zeta.
  rewrite !set_if_other by discriminate.
  destruct (includes trimmed "Requests per second:"); cbn [set_if].
  - rewrite lookup_insert_eq. intros [= <-]. apply float_field_number.
  - rewrite !set_if_other by discriminate. apply Hr.
Qed.

Lemma parse_lines_rps (lines : list string) (r : gmap string Value)
    (codes : list (string * Z)) :
  (∀ v, r !! "requestsPerSecond" = Some v → is_number v = true) →
  ∀ v, (foldl parse_line (r, codes) lines).1 !! "requestsPerSecond" = Some v →
       is_number v = true.
Proof.
  revert r codes. induction lines as [|line lines IH]; intros r codes Hr; [done|].
  cbn [foldl]. unfold parse_line at 2. cbn [fst snd].
  apply IH. by apply scan_labels_rps.
Qed.

Lemma parseResults_rps (output : string) (v : Value) :
  parseResults output !! "requestsPerSecond" = Some v → is_number v = true.
Proof.
  unfold parseResults.
  pose proof (parse_lines_rps (split output (String "010" EmptyString)) ∅ [])
    as Hrps.
  destruct (foldl parse_line _ _) as [result statusCodes]. cbn [fst] in Hrps.
  case_match.
  - repeat (rewrite lookup_insert_ne by discriminate).
    apply Hrps. intros ?. by rewrite lookup_empty.
  - apply Hrps. intros ?. by rewrite lookup_empty.
Qed.

Lemma assembled_rps_prints (config : ABTestConfig) (output : string) :
  ∃ text,
    toFixed2_value
      (assembleResult config (parseResults output) !! "requestsPerSecond")
    = Ret text.
Proof.
  pose proof (assembleResult_zero_defaults config (parseResults output)) as Hz.
  rewrite Forall_forall in Hz.
  rewrite (Hz "requestsPerSecond")
    by (apply (bool_decide_unpack _); vm_compute; exact I).
  destruct (parseResults output !! "requestsPerSecond") as [v|] eqn:Hv;
    [|by eexists].
  apply parseResults_rps in Hv.
  destruct v as [| |[]| | |]; try discriminate; by eexists.
Qed.

(** C3, as amended.  In the result of a run that exits with code 0, the
    properties [timeTaken], [completeRequests], [failedRequests],
    [totalTransferred], [htmlTransferred], [requestsPerSecond],
    [timePerRequest], [timePerRequestConcurrent] and [transferRate] that
    parsing left unset are 0; an unset [serverPort] is 80 and an unset
    [concurrencyLevel] is the configured concurrency; [documentLength] and
    the histogram properties stay as parsing left them, so absent when
    unset.  A property parsing did set keeps the parsed value. *)
Theorem successful_exit_result_defaults (r : Run) (w : World) :
  run_sessionId r ∉ stoppedByUser w →
  settled r = None →
  let parsed := parseResults (output r) in
  ∃ result,
    settled (on_close (Some 0) (r, w)).1 = Some (Resolved (Some result))
    ∧ Forall (λ k, result !! k = Some (default (VNum (Int 0)) (parsed !! k)))
             zero_default_fields
    ∧ result !! "serverPort"
      = Some (default (VNum (Int 80)) (parsed !! "serverPort"))
    ∧ result !! "concurrencyLevel"
      = Some (default (VNum (Int (concurrency (run_config r))))
                      (parsed !! "concurrencyLevel"))
    ∧ Forall (λ k, result !! k = parsed !! k)
             ("documentLength" :: histogram_fields).
Proof.
  intros Hlive Hpending. cbv zeta.
  exists (assembleResult (run_config r) (parseResults (output r))).
  split; [|split; [apply assembleResult_zero_defaults|
                   split; [apply assembleResult_other_defaults|
                   split; [apply assembleResult_other_defaults|
                           apply assembleResult_no_default]]]].
  unfold on_close. cbn [shut_down run_sessionId output run_config].
  rewrite bool_decide_false by done.
  rewrite bool_decide_true by done. cbn [negb].
  destruct (assembled_rps_prints (run_config r) (output r)) as [text ->].
  cbn. by rewrite Hpending.
Qed.

End AssemblyProperties.

(** ** Stopping a run *)

Section RunnerProperties.
Context `{Platform}.

Lemma logs_of_app (t1 t2 : list Event) :
  logs_of (t1 ++ t2) = logs_of t1 ++ logs_of t2.
Proof. unfold logs_of. apply omap_app. Qed.

(** What a successful [stopTest] leaves behind. *)
Lemma stopTest_true (sessionId : string) (w w' : World) :
  stopTest sessionId w = (true, w') →
  ∃ h,
    activeProcesses w !! sessionId = Some h
    ∧ trace w' = trace w ++
        [ MarkStopped sessionId; Kill h "SIGKILL";
          ConsoleLog ("Process Apache Benchmark forcibly stopped for session: "
                      +:+ sessionId) ]
    ∧ stoppedByUser w' = {[sessionId]} ∪ stoppedByUser w
    ∧ activeProcesses w' = delete sessionId (activeProcesses w)
    ∧ files w' = files w.
Proof.
  unfold stopTest. intros Hstop.
  destruct (activeProcesses w !! sessionId) as [h|]; [|discriminate].
  destruct (processes w !! h) as [process|]; [|discriminate].
  destruct (killed process); [discriminate|]. cbn [negb] in Hstop.
  exists h. split; [reflexivity|].
  destruct (kill_answer process); [| |discriminate];
    injection Hstop as <-; cbn; rewrite <- ?app_assoc; done.
Qed.

(** C8. [stopTest] for a session without a live process handle returns
    false and leaves everything as it was: no flag, no signal, no change of
    the tables.  Hence right after a [stopTest] that returned true, a second
    call for the same session finds no live handle, returns false and adds
    nothing to the trace: no second signal, no further event. *)
Theorem stopTest_without_live_process (sessionId : string) (w : World) :
  (live sessionId w = false → stopTest sessionId w = (false, w))
  ∧ (∀ w', stopTest sessionId w = (true, w') →
       live sessionId w' = false
       ∧ stopTest sessionId w' = (false, w')
       ∧ trace (stopTest sessionId w').2 = trace w').
Proof.
  assert (Hdead : ∀ w0, live sessionId w0 = false →
                        stopTest sessionId w0 = (false, w0)).
  { intros w0. unfold live, stopTest.
    destruct (activeProcesses w0 !! sessionId) as [h|]; [|done].
    destruct (processes w0 !! h) as [process|]; [|done].
    by destruct (killed process). }
  split; [apply Hdead|].
  intros w' Hstop.
  apply stopTest_true in Hstop as (h & _ & _ & _ & Hactive & _).
  assert (Hgone : live sessionId w' = false).
  { unfold live. by rewrite Hactive, lookup_delete_eq. }
  by rewrite (Hdead w' Hgone).
Qed.

(** While the flag of its session is set, a callback of the streams or of
    the timer changes nothing and emits nothing. *)
Lemma stream_callback_suppressed (r : Run) (w : World) (c : Callback) :
  run_sessionId r ∈ stoppedByUser w →
  is_stream c = true →
  deliver (r, w) c = (r, w).
Proof.
  intros Hflag Hstream.
  destruct c; try discriminate; cbn [deliver].
  - unfold on_stdout_line. by rewrite bool_decide_true.
  - unfold on_stderr_data. by rewrite bool_decide_true.
  - unfold on_progress_tick. by rewrite bool_decide_false by (by intros ?).
Qed.

Lemma stream_callbacks_suppressed (r : Run) (w : World) (cs : list Callback) :
  run_sessionId r ∈ stoppedByUser w →
  Forall (λ c, is_stream c = true) cs →
  foldl deliver (r, w) cs = (r, w).
Proof.
  intros Hflag Hcs. induction Hcs as [|c cs Hc _ IH]; [done|].
  cbn [foldl]. by rewrite stream_callback_suppressed.
Qed.

(** The log events of the close callback of a stopped run. *)
Lemma close_stopped_logs (r : Run) (w : World) (code : option Z) :
  run_sessionId r ∈ stoppedByUser w →
  logs_of (trace (on_close code (r, w)).2)
  = logs_of (trace w) ++ [(info, "Test stopped by user")].
Proof.
  intros Hflag. unfold on_close. cbn [shut_down run_sessionId run_dataFile].
  rewrite bool_decide_true by done. cbn [snd].
  unfold cleanup_if_set.
  destruct (run_dataFile r) as [f|]; [destruct (nonempty f)|];
    cbn; rewrite ?logs_of_app; cbn; by rewrite ?app_nil_r.
Qed.

(** C2. Once [stopTest] has returned true for a session, the flag of the
    session is set, and it was set before the signal was sent.  From then
    on every line callback of stdout, every data callback of stderr and
    every tick of the progress timer of that session leaves the state as it
    is and emits no log event; when the process closes, the only log event
    added since the stop is the event [Test stopped by user] at level
    info. *)
Theorem stop_silences_stream_callbacks (r : Run) (w w' : World)
    (callbacks : list Callback) (code : option Z) :
  stopTest (run_sessionId r) w = (true, w') →
  Forall (λ c, is_stream c = true) callbacks →
  (∃ h, trace w' = trace w ++
          [ MarkStopped (run_sessionId r); Kill h "SIGKILL";
            ConsoleLog ("Process Apache Benchmark forcibly stopped for session: "
                        +:+ run_sessionId r) ])
  ∧ run_sessionId r ∈ stoppedByUser w'
  ∧ foldl deliver (r, w') callbacks = (r, w')
  ∧ logs_of (trace (foldl deliver (r, w') callbacks).2) = logs_of (trace w)
  ∧ logs_of (trace (on_close code (foldl deliver (r, w') callbacks)).2)
    = logs_of (trace w) ++ [(info, "Test stopped by user")].
Proof.
  intros Hstop Hcs.
  apply stopTest_true in Hstop as (h & _ & Htrace & Hflag & _ & _).
  assert (Hset : run_sessionId r ∈ stoppedByUser w').
  { rewrite Hflag. apply elem_of_union_l. by apply elem_of_singleton. }
  assert (Hlogs : logs_of (trace w') = logs_of (trace w)).
  { rewrite Htrace, logs_of_app. cbn. by rewrite app_nil_r. }
  rewrite (stream_callbacks_suppressed r w' callbacks Hset Hcs).
  split; [by exists h|]. split; [done|]. split; [done|]. split; [done|].
  by rewrite close_stopped_logs, Hlogs.
Qed.

(** ** The temporary payload file *)

Lemma unlinks_app (f : string) (t1 t2 : list Event) :
  unlinks f (t1 ++ t2) = (unlinks f t1 + unlinks f t2)%nat.
Proof. unfold unlinks. by rewrite filter_app, length_app. Qed.

Lemma unlinks_same (f : string) : unlinks f [Unlink f] = 1%nat.
Proof. unfold unlinks. by rewrite filter_cons_True. Qed.

Lemma unlinks_log (f : string) (level : LogLevel) (m : string) :
  unlinks f [OnLog level m] = 0%nat.
Proof. unfold unlinks. by rewrite filter_cons_False. Qed.

Lemma cleanup_if_set_unlinks (f : string) (w : World) :
  nonempty f = true →
  unlinks f (trace (cleanup_if_set (Some f) w)) = S (unlinks f (trace w))
  ∧ files (cleanup_if_set (Some f) w) = delete f (files w).
Proof.
  intros Hf. unfold cleanup_if_set. rewrite Hf. cbn.
  rewrite unlinks_app, unlinks_same. split; [lia | done].
Qed.

(** A cancelled run, a run that ends with code 0 and a run whose process
    reports an error each unlink the payload file once. *)
Lemma close_cancelled_unlinks_once (r : Run) (w : World) (code : option Z)
    (f : string) :
  run_dataFile r = Some f → nonempty f = true →
  run_sessionId r ∈ stoppedByUser w →
  let w' := (on_close code (r, w)).2 in
  unlinks f (trace w') = S (unlinks f (trace w)) ∧ files w' !! f = None.
Proof.
  intros Hfile Hf Hflag. cbv zeta. unfold on_close.
  cbn [shut_down run_sessionId run_dataFile]. rewrite bool_decide_true by done.
  cbn [snd]. rewrite Hfile.
  match goal with
  | |- context [cleanup_if_set (Some f) ?w0] =>
      destruct (cleanup_if_set_unlinks f w0 Hf) as [-> ->]
  end.
  cbn. rewrite unlinks_app, unlinks_log. split; [lia | apply lookup_delete_eq].
Qed.

Lemma close_succeeded_unlinks_once (r : Run) (w : World) (f : string) :
  run_dataFile r = Some f → nonempty f = true →
  run_sessionId r ∉ stoppedByUser w →
  let w' := (on_close (Some 0) (r, w)).2 in
  unlinks f (trace w') = S (unlinks f (trace w)) ∧ files w' !! f = None.
Proof.
  intros Hfile Hf Hflag. cbv zeta. unfold on_close.
  cbn [shut_down run_sessionId run_dataFile output run_config].
  rewrite bool_decide_false by done. rewrite bool_decide_true by done.
  cbn [negb].
  destruct (toFixed2_value _); cbn [snd run_dataFile settle shut_down];
    rewrite Hfile;
    match goal with
    | |- context [cleanup_if_set (Some f) ?w0] =>
        destruct (cleanup_if_set_unlinks f w0 Hf) as [-> ->]
    end;
    cbn; rewrite unlinks_app, unlinks_log; (split; [lia | apply lookup_delete_eq]).
Qed.

Lemma error_unlinks_once (r : Run) (w : World) (e f : string) :
  run_dataFile r = Some f → nonempty f = true →
  let w' := (on_error e (r, w)).2 in
  unlinks f (trace w') = S (unlinks f (trace w)) ∧ files w' !! f = None.
Proof.
  intros Hfile Hf. cbv zeta. unfold on_error.
  cbn [shut_down run_dataFile snd]. rewrite Hfile.
  match goal with
  | |- context [cleanup_if_set (Some f) ?w0] =>
      destruct (cleanup_if_set_unlinks f w0 Hf) as [-> ->]
  end.
  cbn. rewrite unlinks_app, unlinks_log. split; [lia | apply lookup_delete_eq].
Qed.

(** C1: the exit path the source misses.  When the process of a run that
    created a payload file closes with a code other than 0 and the user did
    not stop it, the close callback logs the failure and rejects, and that
    is all: it unlinks nothing and the payload file stays where it is. *)
Theorem close_failed_leaves_payload_file (r : Run) (w : World)
    (code : option Z) (f data : string) :
  run_dataFile r = Some f →
  files w !! f = Some data →
  run_sessionId r ∉ stoppedByUser w →
  code ≠ Some 0 →
  let w' := (on_close code (r, w)).2 in
  unlinks f (trace w') = unlinks f (trace w)
  ∧ files w' !! f = Some data
  ∧ trace w' = trace w ++
      [ OnLog error ("Apache Benchmark finished with code " +:+ code_text code
                     +:+ ": " +:+ errorOutput r) ].
Proof.
  intros Hfile Hdata Hflag Hcode. cbv zeta. unfold on_close.
  cbn [shut_down run_sessionId run_dataFile errorOutput].
  rewrite bool_decide_false by done. rewrite bool_decide_false by done.
  cbn. rewrite unlinks_app, unlinks_log. split; [lia | done].
Qed.

End RunnerProperties.

(** ** The log buffer of a session *)

Section StoreProperties.
Context `{Platform}.

Lemma slice_last_length {A} (n : nat) (l : list A) :
  length (slice_last n l) = (n `min` length l)%nat.
Proof. unfold slice_last. rewrite length_drop. lia. Qed.

Lemma slice_last_all {A} (n : nat) (l : list A) :
  (length l ≤ n)%nat → slice_last n l = l.
Proof.
  intros Hl. unfold slice_last.
  by replace (length l - n)%nat with 0%nat by lia.
Qed.

Lemma slice_last_suffix {A} (n : nat) (l : list A) :
  slice_last n l `suffix_of` l.
Proof. apply suffix_drop. Qed.

(** Cutting early loses nothing the last cut would keep. *)
Lemma slice_last_absorb {A} (n : nat) (l r : list A) :
  slice_last n (slice_last n l ++ r) = slice_last n (l ++ r).
Proof.
  destruct (decide (length l ≤ n)%nat) as [Hle|Hgt].
  - by rewrite (slice_last_all n l).
  - unfold slice_last. rewrite !length_app, length_drop.
    replace (length l - (length l - n) + length r - n)%nat
      with (length r) by lia.
    replace (length l + length r - n)%nat
      with ((length l - n) + length r)%nat by lia.
    rewrite <- drop_drop. by rewrite (drop_app_le l) by lia.
Qed.

(** The push and the cut of [addLogToSession] together keep the newest
    [MAX_LOGS_PER_SESSION] entries. *)
Lemma push_then_cut (l : list LogEntry.t) (e : LogEntry.t) :
  (if (MAX_LOGS_PER_SESSION <? length (l ++ [e]))%nat
   then slice_last MAX_LOGS_PER_SESSION (l ++ [e]) else l ++ [e])
  = slice_last MAX_LOGS_PER_SESSION (l ++ [e]).
Proof.
  destruct (Nat.ltb_spec MAX_LOGS_PER_SESSION (length (l ++ [e]))); [done|].
  by rewrite slice_last_all.
Qed.

Lemma broadcast_sessions (sessionId : string) (data : LogEntry.t) (srv : Server) :
  sessions (broadcastToSession sessionId data srv) = sessions srv.
Proof. reflexivity. Qed.

Lemma appendLog_same (srv : Server) (a : Append) (session : TestSession.t) :
  sessions srv !! ap_session a = Some session →
  sessions (appendLog srv a) =
    <[ap_session a :=
        TestSession.with_logs
          (slice_last MAX_LOGS_PER_SESSION
             (TestSession.logs session ++ [append_entry a])) session]>
      (sessions srv).
Proof.
  intros Hs. unfold appendLog, addLogToSession. rewrite Hs.
  rewrite broadcast_sessions. cbn [sessions]. by rewrite push_then_cut.
Qed.

Lemma appendLog_absent (srv : Server) (a : Append) :
  sessions srv !! ap_session a = None → appendLog srv a = srv.
Proof. intros Hs. unfold appendLog, addLogToSession. by rewrite Hs. Qed.

Lemma appendLog_logs (srv : Server) (a : Append) (sessionId : string) :
  is_Some (sessions srv !! sessionId) →
  is_Some (sessions (appendLog srv a) !! sessionId)
  ∧ logs_of_session sessionId (appendLog srv a) =
      if decide (ap_session a = sessionId)
      then slice_last MAX_LOGS_PER_SESSION
             (logs_of_session sessionId srv ++ [append_entry a])
      else logs_of_session sessionId srv.
Proof.
  intros [session Hs]. unfold logs_of_session.
  destruct (sessions srv !! ap_session a) as [target|] eqn:Ht.
  - rewrite (appendLog_same srv a target Ht).
    case_decide as Heq.
    + subst sessionId. rewrite lookup_insert_eq. rewrite Ht. by eauto.
    + rewrite lookup_insert_ne by done. rewrite Hs. by eauto.
  - rewrite (appendLog_absent srv a Ht), Hs.
    case_decide as Heq; [congruence | by eauto].
Qed.

Lemma appendLogs_logs (appends : list Append) (srv : Server) (sessionId : string) :
  is_Some (sessions srv !! sessionId) →
  (length (logs_of_session sessionId srv) ≤ MAX_LOGS_PER_SESSION)%nat →
  logs_of_session sessionId (foldl appendLog srv appends)
  = slice_last MAX_LOGS_PER_SESSION
      (logs_of_session sessionId srv ++ entries_for sessionId appends).
Proof.
  revert srv. induction appends as [|a appends IH]; intros srv Hs Hlen.
  - cbn. by rewrite app_nil_r, slice_last_all.
  - cbn [foldl].
    destruct (appendLog_logs srv a sessionId Hs) as [Hs' Hlogs].
    rewrite IH; [|done|].
    + rewrite Hlogs. unfold entries_for. rewrite filter_cons.
      case_decide; [|done].
      rewrite fmap_cons, slice_last_absorb, <- app_assoc. done.
    + rewrite Hlogs. case_decide; [|done].
      rewrite slice_last_length. lia.
Qed.

(** C9. After any call of [addLogToSession] the buffer of the session it
    appended to holds at most 500 entries.  Over any sequence of calls, a
    buffer that starts within the cap is, at the end, the newest 500 (or
    all, if fewer) of the entries it had and the entries appended to it, in
    their order: the oldest are the ones evicted. *)
Theorem log_buffer_bounded_fifo (srv : Server) (sessionId : string)
    (appends : list Append) :
  MAX_LOGS_PER_SESSION = 500%nat
  ∧ (∀ a, (length (logs_of_session (ap_session a) (appendLog srv a))
           ≤ MAX_LOGS_PER_SESSION)%nat)
  ∧ (is_Some (sessions srv !! sessionId) →
     (length (logs_of_session sessionId srv) ≤ MAX_LOGS_PER_SESSION)%nat →
     let before := logs_of_session sessionId srv in
     let added := entries_for sessionId appends in
     let after := logs_of_session sessionId (foldl appendLog srv appends) in
     after = drop (length (before ++ added) - MAX_LOGS_PER_SESSION) (before ++ added)
     ∧ after `suffix_of` before ++ added
     ∧ length after = (MAX_LOGS_PER_SESSION `min` length (before ++ added))%nat).
Proof.
  split; [reflexivity|]. split.
  - intros a. unfold logs_of_session at 1.
    destruct (sessions srv !! ap_session a) as [session|] eqn:Hs.
    + rewrite (appendLog_same srv a session Hs), lookup_insert_eq.
      cbn [TestSession.logs TestSession.with_logs].
      rewrite slice_last_length. lia.
    + rewrite (appendLog_absent srv a Hs), Hs. cbn. lia.
  - intros Hs Hlen. cbv zeta.
    rewrite (appendLogs_logs appends srv sessionId Hs Hlen).
    split; [reflexivity|]. split; [apply slice_last_suffix|].
    apply slice_last_length.
Qed.

End StoreProperties.


(** ** More on validation and the command builder *)

Section MoreBuilderProperties.
Context `{Platform}.

Lemma report_nil (b : bool) (x : string) :
  (if b then [x] else []) = [] ↔ b = false.
Proof. destruct b; split; congruence. Qed.

Lemma report_neg_nil (b : bool) (x : string) :
  (if b then [] else [x]) = [] ↔ b = true.
Proof. destruct b; split; congruence. Qed.

(** X1. [validateConfig] returns no error exactly for the configurations
    with a non-empty URL the URL parser accepts, a positive number of
    requests, a positive concurrency not above the requests, and a body
    when the method is POST or PUT. *)
Theorem validateConfig_accepts_iff (config : ABTestConfig) :
  validateConfig config = [] ↔
    url config ≠ ""
    ∧ URL_parses (url config) = true
    ∧ 0 < requests config
    ∧ 0 < concurrency config
    ∧ concurrency config ≤ requests config
    ∧ (method config = Some POST ∨ method config = Some PUT →
       truthy_str (dataBody config) = true).
Proof.
  rewrite validateConfig_checks.
  rewrite !app_nil, !report_nil, !report_neg_nil.
  rewrite !andb_false_iff, !negb_false_iff, !bool_decide_eq_false,
    Z.ltb_ge, !Z.leb_gt.
  assert (Hurl : nonempty (url config) = true ↔ url config ≠ "")
    by (destruct (url config); simpl; split; congruence).
  rewrite Hurl. split.
  - intros (? & ? & ? & ? & [?|?] & [?|?] & ?); repeat split; try done;
      intros [?|?]; done.
  - intros (? & ? & ? & ? & ? & Hbody). repeat split; try done.
    + destruct (decide (method config = Some POST)); [right; auto | by left].
    + destruct (decide (method config = Some PUT)); [right; auto | by left].
Qed.

(** X2. Every argument vector [buildCommand] returns starts with [ab],
    [-n] and the requests, [-c] and the concurrency, and ends with the
    URL. *)
Theorem buildCommand_first_and_last (config : ABTestConfig)
    (sessionId : string) (now : Z) (files files' : gmap string string)
    (cmd : Command) :
  buildCommand config sessionId now files = Ret (cmd, files') →
  ∃ middle,
    args cmd =
      ["ab"; "-n"; pretty (requests config); "-c"; pretty (concurrency config)]
      ++ middle ++ [url config]
    ∧ last (args cmd) = Some (url config).
Proof.
  intros Hbuild. rewrite buildCommand_cases in Hbuild.
  assert (∃ rest, args cmd = option_args config ++ rest ++ [url config])
    as [rest Hargs].
  { destruct (payload_flag config).
    - destruct (transformDataBody _ _); simpl in Hbuild; [|discriminate].
      injection Hbuild as <- _. cbn [args].
      exists ([s; tempFileName sessionId now] ++ content_type_args config).
      by rewrite <- !app_assoc.
    - injection Hbuild as <- _. by exists []. }
  assert (∃ tail, args_before_verbosity config =
            ["ab"; "-n"; pretty (requests config); "-c";
             pretty (concurrency config)] ++ tail) as [tail Hhead]
    by (unfold args_before_verbosity; eexists; reflexivity).
  exists (tail ++ ["-v"; pretty (tool_verbosity config)]
          ++ args_after_verbosity config ++ rest).
  rewrite Hargs, option_args_verbosity, Hhead. split.
  - by rewrite <- !app_assoc.
  - rewrite !app_assoc. apply last_snoc.
Qed.



End MoreBuilderProperties.


(** ** More on the result parser *)

Section MoreParserProperties.
Context `{Platform}.

Lemma total_count_cons (e : string * Z) (h : list (string * Z)) :
  total_count (e :: h) = e.2 + total_count h.
Proof. reflexivity. Qed.

Lemma total_count_bump (k : string) (h : list (string * Z)) :
  total_count (bump k h) = total_count h + 1.
Proof.
  induction h as [|[k' n] h IH]; cbn [bump]; [reflexivity|].
  case_decide; [|destruct (_ && _)]; rewrite !total_count_cons; cbn [snd].
  - destruct (Z.eqb_spec n 0); lia.
  - lia.
  - lia.
Qed.

Lemma bump_positive (k : string) (h : list (string * Z)) :
  Forall (λ e, 1 ≤ e.2) h → Forall (λ e, 1 ≤ e.2) (bump k h).
Proof.
  induction 1 as [|[k' n] h Hn Hh IH]; cbn [bump].
  - repeat constructor; cbn [snd]; lia.
  - cbn [snd] in Hn.
    case_decide; [|destruct (_ && _)]; repeat constructor; cbn [snd];
      try done; try lia.
    destruct (Z.eqb_spec n 0); lia.
Qed.

(** The status-code object after the lines: one more per status line. *)
Lemma parse_lines_total (lines : list string) (r : gmap string Value)
    (codes : list (string * Z)) :
  total_count (foldl parse_line (r, codes) lines).2
  = total_count codes
    + Z.of_nat (length (filter (λ line, status_line line = true) lines))
  ∧ (Forall (λ e, 1 ≤ e.2) codes →
     Forall (λ e, 1 ≤ e.2) (foldl parse_line (r, codes) lines).2).
Proof.
  revert r codes. induction lines as [|line lines IH]; intros r codes.
  - rewrite filter_nil. cbn [foldl snd length]. split; [lia | done].
  - cbn [foldl]. unfold parse_line at 2 4. cbn [fst snd].
    destruct (IH (scan_labels (trim line) r) (scan_status (trim line) codes))
      as [-> Hpos].
    assert (Hline : status_line line = true
                    ↔ is_Some (match_http_status (trim line)))
      by (unfold status_line; apply bool_decide_eq_true).
    rewrite scan_status_match in *. rewrite filter_cons.
    destruct (match_http_status (trim line)) as [code|] eqn:Hm.
    + rewrite decide_True by (apply Hline; eauto).
      rewrite total_count_bump. cbn [length]. split; [lia|].
      intros Hc. apply Hpos. by apply bump_positive.
    + rewrite decide_False by (rewrite Hline; by intros [? ?]).
      split; [lia | done].
Qed.

(** What [parseResults] stores under [statusCodes] is the object the lines
    built. *)
Lemma parseResults_statusCodes (output : string) (h : list (string * Z)) :
  parseResults output !! "statusCodes" = Some (VCodes h) →
  h = (foldl parse_line (∅, []) (split output (String "010" EmptyString))).2
  ∧ h ≠ [].
Proof.
  unfold parseResults.
  pose proof (parse_lines_histogram (split output (String "010" EmptyString))
                ∅ [] "statusCodes") as Hkeep.
  destruct (foldl parse_line _ _) as [result statusCodes]. cbn [fst snd] in *.
  destruct statusCodes as [|e statusCodes]; cbn [length Nat.ltb Nat.leb].
  - rewrite Hkeep by apply list_elem_of_here. by rewrite lookup_empty.
  - repeat (rewrite lookup_insert_ne by discriminate).
    rewrite lookup_insert_eq. by intros [= <-].
Qed.

(** X5. The counts of the status-code object [parseResults] returns add up
    to the number of lines on which the status expression matches (a line
    counts once, however many occurrences it holds), and every code in it
    has a count of at least 1. *)
Theorem status_codes_count_status_lines (output : string)
    (h : list (string * Z)) :
  parseResults output !! "statusCodes" = Some (VCodes h) →
  total_count h
  = Z.of_nat (length (filter (λ line, status_line line = true)
                        (split output (String "010" EmptyString))))
  ∧ Forall (λ e, 1 ≤ e.2) h.
Proof.
  intros Hh. apply parseResults_statusCodes in Hh as [-> _].
  destruct (parse_lines_total (split output (String "010" EmptyString)) ∅ [])
    as [-> Hpos].
  split; [change (total_count []) with 0; lia | by apply Hpos].
Qed.

(** The counters after a list of entries, class by class. *)
Lemma categorize_classes (l : list (string * Z)) (acc : Categories) :
  let cats := foldl categorize acc l in
  let within (lo hi : Z) (e : string * Z) :=
    lo ≤ code_number e.1 ∧ code_number e.1 < hi in
  successfulRequests cats
    = successfulRequests acc + total_count (filter (within 200 300) l)
  ∧ redirects cats = redirects acc + total_count (filter (within 300 400) l)
  ∧ clientErrors cats
    = clientErrors acc + total_count (filter (within 400 500) l)
  ∧ serverErrors cats
    = serverErrors acc + total_count (filter (λ e, 500 ≤ code_number e.1) l)
  ∧ errorSummary cats
    = errorSummary acc
      ++ ((λ e, summary_entry e.1 e.2 (code_number e.1))
            <$> filter (λ e, 300 ≤ code_number e.1) l).
Proof.
  cbv zeta. revert acc. induction l as [|[code count] l IH]; intros acc.
  - rewrite !filter_nil, fmap_nil, app_nil_r.
    change (total_count []) with 0. cbn [foldl]. repeat split; lia.
  - cbn [foldl].
    destruct (IH (categorize acc (code, count))) as (-> & -> & -> & -> & ->).
    rewrite !filter_cons. cbn [fst snd].
    assert (Hcn : code_number code
                  = match parseInt code None with Int n => n | NaN => 0 end)
      by reflexivity.
    unfold categorize.
    destruct (parseInt code None) as [|n]; rewrite Hcn.
    + rewrite !decide_False by lia. repeat split; lia.
    + destruct (Z.leb_spec 200 n), (Z.ltb_spec n 300), (Z.leb_spec 300 n),
        (Z.ltb_spec n 400), (Z.leb_spec 400 n), (Z.ltb_spec n 500),
        (Z.leb_spec 500 n); try lia;
        cbn [andb successfulRequests redirects clientErrors serverErrors
               errorSummary];
        repeat (first [rewrite decide_True by lia | rewrite decide_False by lia]);
        rewrite ?total_count_cons, ?fmap_cons; cbn [fst snd];
        rewrite ?Hcn, <- ?app_assoc; cbn [app];
        repeat split; try lia; try reflexivity.
Qed.

(** X6. With a status-code object [h], [parseResults] sets the four class
    counters to the totals of the codes of [h] in 200..299, 300..399,
    400..499 and from 500 up, and [errorSummary] to one entry per code of
    [h] from 300 up, in the order of [h], with the count of the code and the
    message of [getStatusMessage]. *)
Theorem status_classes_from_codes (output : string) (h : list (string * Z)) :
  parseResults output !! "statusCodes" = Some (VCodes h) →
  let within (lo hi : Z) (e : string * Z) :=
    lo ≤ code_number e.1 ∧ code_number e.1 < hi in
  parseResults output !! "successfulRequests"
    = Some (VNum (Int (total_count (filter (within 200 300) h))))
  ∧ parseResults output !! "redirects"
    = Some (VNum (Int (total_count (filter (within 300 400) h))))
  ∧ parseResults output !! "clientErrors"
    = Some (VNum (Int (total_count (filter (within 400 500) h))))
  ∧ parseResults output !! "serverErrors"
    = Some (VNum (Int (total_count (filter (λ e, 500 ≤ code_number e.1) h))))
  ∧ parseResults output !! "errorSummary"
    = Some (VSummary ((λ e, summary_entry e.1 e.2 (code_number e.1))
                        <$> filter (λ e, 300 ≤ code_number e.1) h)).
Proof.
  intros Hh. cbv zeta.
  destruct (parseResults_statusCodes output h Hh) as [Hfold Hne].
  unfold parseResults in *.
  destruct (foldl parse_line _ _) as [result statusCodes].
  cbn [snd] in Hfold. subst statusCodes.
  destruct h as [|e h]; [done|]. cbn [length Nat.ltb Nat.leb].
  destruct (categorize_classes (e :: h) no_categories)
    as (Hs & Hr & Hc & Hv & Hsum).
  cbn [no_categories successfulRequests redirects clientErrors serverErrors
         errorSummary app] in Hs, Hr, Hc, Hv, Hsum.
  rewrite Z.add_0_l in Hs, Hr, Hc, Hv.
  repeat split; repeat (rewrite lookup_insert_ne by discriminate);
    rewrite lookup_insert_eq; congruence.
Qed.

(** How one line changes the presence of a labelled property. *)
Lemma scan_labels_presence (trimmed key : string) (cond : string → bool)
    (r : gmap string Value) :
  (key, cond) ∈ label_rules →
  is_Some (scan_labels trimmed r !! key)
  ↔ cond trimmed = true ∨ is_Some (r !! key).
Proof.
  intros Hin. unfold label_rules in Hin.
  repeat (apply elem_of_cons in Hin as [Hin|Hin]);
    [..|by apply elem_of_nil in Hin];
    injection Hin as -> ->; cbv beta;
    unfold scan_labels, on_label; cbv zeta;
    rewrite ?set_if_other by discriminate;
    match goal with
    | |- is_Some (set_if ?b _ _ _ !! _) ↔ _ =>
        destruct b; cbn [set_if];
        [ rewrite lookup_insert_eq; split; [by left | by eauto]
        | rewrite ?set_if_other by discriminate;
          split; [by right | by intros [?|?]] ]
    end.
Qed.

Lemma parse_lines_presence (lines : list string) (key : string)
    (cond : string → bool) (r : gmap string Value) (codes : list (string * Z)) :
  (key, cond) ∈ label_rules →
  is_Some ((foldl parse_line (r, codes) lines).1 !! key)
  ↔ is_Some (r !! key) ∨ Exists (λ line, cond (trim line) = true) lines.
Proof.
  intros Hin. revert r codes.
  induction lines as [|line lines IH]; intros r codes.
  - cbn. rewrite Exists_nil. tauto.
  - cbn [foldl]. unfold parse_line at 2. cbn [fst snd].
    rewrite IH, (scan_labels_presence _ _ _ _ Hin), Exists_cons. tauto.
Qed.

(** X7. A labelled property is present in the result of [parseResults]
    exactly when some line of the text carries its label; for the two
    [Time per request] properties the line must, respectively must not,
    contain [across all concurrent]. *)
Theorem labelled_property_presence (output key : string)
    (cond : string → bool) :
  (key, cond) ∈ label_rules →
  is_Some (parseResults output !! key)
  ↔ Exists (λ line, cond (trim line) = true)
      (split output (String "010" EmptyString)).
Proof.
  intros Hin.
  pose proof (parse_lines_presence (split output (String "010" EmptyString))
                key cond ∅ [] Hin) as Hfold.
  rewrite lookup_empty in Hfold.
  assert (Hkeys : Forall (λ k, k ≠ key) histogram_fields).
  { unfold label_rules in Hin. unfold histogram_fields.
    repeat (apply elem_of_cons in Hin as [Hin|Hin]);
      [..|by apply elem_of_nil in Hin];
      injection Hin as -> ->; repeat constructor; discriminate. }
  unfold histogram_fields in Hkeys.
  repeat (apply Forall_cons_1 in Hkeys as [? Hkeys]).
  unfold parseResults.
  destruct (foldl parse_line _ _) as [result statusCodes]. cbn [fst] in Hfold.
  assert (is_Some (result !! key)
          ↔ Exists (λ line, cond (trim line) = true)
              (split output (String "010" EmptyString))) as <-.
  { rewrite Hfold. split; [intros [[? ?]|?]; done | by right]. }
  case_match; [|done].
  by rewrite !lookup_insert_ne by done.
Qed.

End MoreParserProperties.


(** ** More on the callbacks of a run *)

Section MoreRunnerProperties.
Context `{Platform}.

Lemma only_appends_nil (w : World) : only_appends [] w w.
Proof. unfold only_appends. by rewrite app_nil_r. Qed.

Lemma only_appends_log (level : LogLevel) (m : string) (w : World) :
  only_appends [OnLog level m] w (onLog level m w).
Proof. by unfold only_appends. Qed.

Lemma only_appends_trans (e1 e2 : list Event) (w1 w2 w3 : World) :
  only_appends e1 w1 w2 → only_appends e2 w2 w3 →
  only_appends (e1 ++ e2) w1 w3.
Proof.
  unfold only_appends. intros (-> & -> & -> & -> & H1) (-> & -> & -> & -> & ->).
  by rewrite H1, app_assoc.
Qed.

Local Ltac one_or_none :=
  first
    [ by (exists []; split; [apply only_appends_nil |
                              split; [constructor | cbn; lia]])
    | by (eexists [_]; split; [apply only_appends_log |
                                split; [by repeat constructor | cbn; lia]]) ].

Lemma stdout_line_events (line : string) (r : Run) (w : World) :
  ∃ events,
    only_appends events w (on_stdout_line line (r, w)).2
    ∧ Forall (λ e, is_log e = true) events
    ∧ (length events ≤ 1)%nat.
Proof.
  unfold on_stdout_line, on_json_line, on_warning_line, on_response_line.
  repeat case_match; cbn [snd]; one_or_none.
Qed.

Lemma stderr_line_events (line : string) (w : World) :
  ∃ events,
    only_appends events w (on_stderr_line w line)
    ∧ Forall (λ e, is_log e = true) events
    ∧ (length events ≤ 1)%nat.
Proof. unfold on_stderr_line. repeat case_match; one_or_none. Qed.

Lemma stderr_lines_events (lines : list string) (w : World) :
  ∃ events,
    only_appends events w (foldl on_stderr_line w lines)
    ∧ Forall (λ e, is_log e = true) events
    ∧ (length events ≤ length lines)%nat.
Proof.
  revert w. induction lines as [|line lines IH]; intros w.
  - exists []. split; [apply only_appends_nil|]. split; [constructor | done].
  - cbn [foldl].
    destruct (stderr_line_events line w) as (e1 & Ha1 & Hl1 & Hn1).
    destruct (IH (on_stderr_line w line)) as (e2 & Ha2 & Hl2 & Hn2).
    exists (e1 ++ e2). split; [by eapply only_appends_trans|].
    split; [by apply Forall_app|]. rewrite length_app. cbn [length]. lia.
Qed.

Lemma stream_callback_events (c : Callback) (r : Run) (w : World) :
  is_stream c = true →
  ∃ events,
    only_appends events w (deliver (r, w) c).2
    ∧ Forall (λ e, is_log e = true) events
    ∧ (length events ≤ line_count c)%nat.
Proof.
  intros Hc. destruct c as [line|chunk| | |]; try discriminate;
    cbn [deliver line_count].
  - apply stdout_line_events.
  - unfold on_stderr_data. case_bool_decide; cbn [snd].
    + exists []. split; [apply only_appends_nil|].
      split; [constructor | cbn; lia].
    + destruct (stderr_lines_events
                  (filter (λ line, nonempty (trim line) = true) (split chunk LF)) w)
        as (events & Ha & Hl & Hn).
      exists events. split; [done|]. split; [done|].
      etrans; [exact Hn | apply length_filter].
  - unfold on_progress_tick. case_match; cbn [snd]; one_or_none.
Qed.

(** X8. A callback of the streams or of the timer touches nothing but the
    trace: the tables of processes and stop flags and the files stay as
    they are.  What it appends are log events only, at most one for a
    stdout line or a tick and at most one per line of a stderr chunk. *)
Theorem stream_callback_only_logs (c : Callback) (r : Run) (w : World) :
  is_stream c = true →
  ∃ events,
    only_appends events w (deliver (r, w) c).2
    ∧ Forall (λ e, is_log e = true) events
    ∧ (length events ≤ line_count c)%nat.
Proof. apply stream_callback_events. Qed.








End MoreRunnerProperties.


(** ** More on the life cycle of a run *)

Section LifeCycleProperties.
Context `{Platform}.

Local Arguments logs_of : simpl never.

Lemma not_in_removed (x : string) (X : gset string) : x ∉ X ∖ {[x]}.
Proof. rewrite elem_of_difference, elem_of_singleton. tauto. Qed.

Lemma in_added (x : string) (X : gset string) : x ∈ {[x]} ∪ X.
Proof. apply elem_of_union_l. by apply elem_of_singleton. Qed.

Lemma other_removed (x y : string) (X : gset string) :
  y ≠ x → y ∈ X ∖ {[x]} ↔ y ∈ X.
Proof. rewrite elem_of_difference, elem_of_singleton. tauto. Qed.

Lemma other_added (x y : string) (X : gset string) :
  y ≠ x → y ∈ {[x]} ∪ X ↔ y ∈ X.
Proof. rewrite elem_of_union, elem_of_singleton. tauto. Qed.

Lemma cleanup_if_set_logs (dataFile : option string) (w : World) :
  logs_of (trace (cleanup_if_set dataFile w)) = logs_of (trace w)
  ∧ activeProcesses (cleanup_if_set dataFile w) = activeProcesses w
  ∧ stoppedByUser (cleanup_if_set dataFile w) = stoppedByUser w
  ∧ processes (cleanup_if_set dataFile w) = processes w.
Proof.
  unfold cleanup_if_set.
  destruct dataFile as [f|]; [destruct (nonempty f)|]; cbn; try done.
  rewrite logs_of_app. cbn. by rewrite app_nil_r.
Qed.

Lemma cleanup_if_set_files (dataFile : option string) (w : World) (f : string) :
  dataFile ≠ Some f →
  files (cleanup_if_set dataFile w) !! f = files w !! f.
Proof.
  intros Hf. unfold cleanup_if_set.
  destruct dataFile as [g|]; [destruct (nonempty g)|]; cbn; try done.
  unfold cleanupTempDataFile. rewrite lookup_delete_ne; [done | congruence].
Qed.

(** The tables and the files after the close callback. *)
Lemma close_fields (code : option Z) (r : Run) (w : World) :
  let w' := (on_close code (r, w)).2 in
  activeProcesses w' = delete (run_sessionId r) (activeProcesses w)
  ∧ (∀ other, other ≠ run_sessionId r →
       other ∈ stoppedByUser w' ↔ other ∈ stoppedByUser w)
  ∧ (∀ f, run_dataFile r ≠ Some f → files w' !! f = files w !! f).
Proof.
  cbv zeta. unfold on_close.
  cbn [shut_down run_sessionId run_dataFile output run_config errorOutput].
  case_bool_decide;
    [|case_bool_decide; cbn [negb]; [destruct (toFixed2_value _)|]];
    cbn [fst snd settle run_dataFile];
    try match goal with
        | |- context [cleanup_if_set ?d ?w0] =>
            destruct (cleanup_if_set_logs d w0) as (_ & -> & -> & _);
            pose proof (cleanup_if_set_files d w0) as Hfiles;
            generalize dependent (cleanup_if_set d w0); intros wc Hfiles
        end;
    cbn in *;
    (split; [done|]);
    (split; [intros other Hother; first [done | by apply other_removed]|]);
    intros f Hf; by rewrite ?Hfiles.
Qed.

(** X10. The close callback is the terminal transition of a run, on every
    path: the handle of the session is removed, its stop flag is cleared,
    the timer and the line reader are shut down, the promise is settled,
    and exactly one log event is emitted.  A pending run resolves with
    nothing when it was stopped, rejects with the exit code and the stderr
    text when the code is not 0, and resolves with the assembled result
    when the code is 0. *)
Theorem close_is_terminal (code : option Z) (r : Run) (w : World) :
  let r' := (on_close code (r, w)).1 in
  let w' := (on_close code (r, w)).2 in
  activeProcesses w' = delete (run_sessionId r) (activeProcesses w)
  ∧ (run_sessionId r ∉ stoppedByUser w')
  ∧ processes w' = processes w
  ∧ progressInterval r' = false
  ∧ stdoutReader r' = false
  ∧ pendingJsonResponse r' = None
  ∧ is_Some (settled r')
  ∧ (∃ level message,
       logs_of (trace w') = logs_of (trace w) ++ [(level, message)])
  ∧ (settled r = None →
     settled r' =
       Some (if bool_decide (run_sessionId r ∈ stoppedByUser w)
             then Resolved None
             else if bool_decide (code = Some 0)
             then Resolved (Some (assembleResult (run_config r)
                                    (parseResults (output r))))
             else Rejected ("Apache Benchmark finished with code "
                            +:+ code_text code +:+ ": " +:+ errorOutput r))).
Proof.
  cbv zeta. unfold on_close.
  cbn [shut_down run_sessionId run_dataFile output run_config errorOutput].
  case_bool_decide as Hflag; [|case_bool_decide as Hcode; cbn [negb]];
    [ | destruct (assembled_rps_prints (run_config r) (output r)) as [text ->]
      | ];
    cbn [fst snd];
    try match goal with
        | |- context [cleanup_if_set ?f ?w0] =>
            destruct (cleanup_if_set_logs f w0) as (-> & -> & -> & ->)
        end;
    cbn; repeat split;
    first [ done
          | apply not_in_removed
          | by destruct (settled r); eauto
          | by (rewrite logs_of_app; eexists _, _)
          | by intros -> ].
Qed.

(** X11. When a live process is found but [kill] throws, [stopTest]
    returns false, yet the session is already marked as stopped and its
    handle stays registered: no signal was sent, the streams of the run
    are silenced all the same, and its close callback reports a stop by
    the user. *)
Theorem stopTest_kill_throws (sessionId : string) (w : World) (h : nat)
    (process : ChildProcess) (e : string) :
  activeProcesses w !! sessionId = Some h →
  processes w !! h = Some process →
  killed process = false →
  kill_answer process = KillThrows e →
  ∃ w',
    stopTest sessionId w = (false, w')
    ∧ sessionId ∈ stoppedByUser w'
    ∧ activeProcesses w' = activeProcesses w
    ∧ processes w' = processes w
    ∧ trace w' = trace w ++
        [ MarkStopped sessionId;
          ConsoleError ("Error stopping process for session " +:+ sessionId
                        +:+ ": " +:+ e) ]
    ∧ ∀ (r : Run) (code : option Z),
        run_sessionId r = sessionId →
        logs_of (trace (on_close code (r, w')).2)
        = logs_of (trace w) ++ [(info, "Test stopped by user")].
Proof.
  intros Hactive Hproc Hkilled Hkill.
  set (w1 := emit (ConsoleError ("Error stopping process for session "
                                 +:+ sessionId +:+ ": " +:+ e))
               (emit (MarkStopped sessionId)
                  (with_stoppedByUser ({[sessionId]} ∪ stoppedByUser w) w))).
  assert (Htrace : trace w1 = trace w ++
            [ MarkStopped sessionId;
              ConsoleError ("Error stopping process for session "
                            +:+ sessionId +:+ ": " +:+ e) ])
    by (subst w1; cbn; by rewrite <- app_assoc).
  exists w1. split.
  { unfold stopTest. rewrite Hactive, Hproc, Hkilled. cbn [negb].
    by rewrite Hkill. }
  split; [apply in_added|]. split; [done|]. split; [done|]. split; [done|].
  intros r code <-. rewrite close_stopped_logs by apply in_added.
  rewrite Htrace, logs_of_app. f_equal. apply app_nil_r.
Qed.

(** X12. Stopping a session and the callbacks of its run leave every
    other session alone: the handle and the stop flag of another session
    are as before, and the only file that can disappear is the payload file
    of the run itself. *)
Theorem other_sessions_untouched (other : string) (r : Run) (w : World)
    (c : Callback) :
  other ≠ run_sessionId r →
  let after_stop := (stopTest (run_sessionId r) w).2 in
  let after_callback := (deliver (r, w) c).2 in
  activeProcesses after_stop !! other = activeProcesses w !! other
  ∧ (other ∈ stoppedByUser after_stop ↔ other ∈ stoppedByUser w)
  ∧ files after_stop = files w
  ∧ activeProcesses after_callback !! other = activeProcesses w !! other
  ∧ (other ∈ stoppedByUser after_callback ↔ other ∈ stoppedByUser w)
  ∧ ∀ f, run_dataFile r ≠ Some f →
         files after_callback !! f = files w !! f.
Proof.
  intros Hother. cbv zeta.
  split; [|split; [|split]].
  - unfold stopTest. repeat case_match; cbn; try done.
    all: by rewrite lookup_delete_ne.
  - unfold stopTest. repeat case_match; cbn; try done; by apply other_added.
  - unfold stopTest. repeat case_match; by cbn.
  - destruct c as [line|chunk| |code|e].
    + destruct (stream_callback_events (StdoutLine line) r w eq_refl)
        as (ev & (-> & -> & _ & -> & _) & _). done.
    + destruct (stream_callback_events (StderrData chunk) r w eq_refl)
        as (ev & (-> & -> & _ & -> & _) & _). done.
    + destruct (stream_callback_events ProgressTick r w eq_refl)
        as (ev & (-> & -> & _ & -> & _) & _). done.
    + cbn [deliver].
      destruct (close_fields code r w) as (-> & Hflags & Hfiles).
      split; [by rewrite lookup_delete_ne|]. split; [by apply Hflags|].
      exact Hfiles.
    + cbn [deliver]. unfold on_error. cbn [shut_down run_dataFile snd].
      match goal with
      | |- context [cleanup_if_set (run_dataFile r) ?w0] =>
          destruct (cleanup_if_set_logs (run_dataFile r) w0)
            as (_ & -> & -> & _);
          pose proof (cleanup_if_set_files (run_dataFile r) w0) as Hfiles
      end.
      cbn in *. auto.
Qed.




End LifeCycleProperties.


(** ** Starting a run *)

Section StartProperties.
Context `{Platform}.




End StartProperties.


(** ** The janitor, the validation endpoint, deletion and broadcasts *)

Section ServerProperties.
Context `{Platform}.

Lemma drop_sessions_lookup (ids : list string) (srv : Server) (k : string) :
  sessions (foldl drop_session srv ids) !! k
    = (if bool_decide (k ∈ ids) then None else sessions srv !! k)
  ∧ websocketClients (foldl drop_session srv ids) !! k
    = (if bool_decide (k ∈ ids) then None else websocketClients srv !! k)
  ∧ outbox (foldl drop_session srv ids) = outbox srv.
Proof.
  revert srv. induction ids as [|id ids IH]; intros srv.
  - by rewrite bool_decide_false by apply not_elem_of_nil.
  - cbn [foldl]. destruct (IH (drop_session srv id)) as (-> & -> & ->).
    cbn [drop_session sessions websocketClients outbox].
    destruct (decide (k = id)) as [->|Hne].
    + rewrite !lookup_delete_eq, (bool_decide_true (id ∈ id :: ids))
        by apply list_elem_of_here.
      by case_bool_decide.
    + rewrite !lookup_delete_ne by done.
      assert (k ∈ id :: ids ↔ k ∈ ids) as Hin
        by (rewrite elem_of_cons; tauto).
      by rewrite (bool_decide_ext _ _ Hin).
Qed.

Lemma expired_ids (now : Z) (srv : Server) (k : string) :
  k ∈ fst <$> filter (λ entry, is_expired now entry.2 = true)
                (map_to_list (sessions srv))
  ↔ ∃ session, sessions srv !! k = Some session
               ∧ is_expired now session = true.
Proof.
  rewrite list_elem_of_fmap. split.
  - intros [[k' session] [-> [Hexp Hin]%list_elem_of_filter]].
    apply elem_of_map_to_list in Hin. by exists session.
  - intros (session & Hs & Hexp). exists (k, session). split; [done|].
    apply list_elem_of_filter. split; [done|]. by apply elem_of_map_to_list.
Qed.

(** X16. After [cleanupOldSessions] a session is still there exactly when
    it was there, is at most 24 hours old, and, if its status is completed
    or error, at most one hour old; so a stopped or running session is kept
    for the full 24 hours.  The subscriber of a removed session is removed
    with it, every other subscriber is kept, and nothing is broadcast. *)
Theorem cleanupOldSessions_survivors (now : Z) (srv : Server) (k : string) :
  let srv' := cleanupOldSessions now srv in
  let kept (session : TestSession.t) : Prop :=
    now - TestSession.startTime session ≤ SESSION_LIFETIME
    ∧ (TestSession.status session = TestStatus.completed
       ∨ TestSession.status session = TestStatus.error →
       now - TestSession.startTime session ≤ 60 * 60 * 1000) in
  (∀ session, sessions srv' !! k = Some session
              ↔ sessions srv !! k = Some session ∧ kept session)
  ∧ websocketClients srv' !! k
    = (if bool_decide (is_Some (sessions srv !! k)
                       ∧ sessions srv' !! k = None)
       then None else websocketClients srv !! k)
  ∧ outbox srv' = outbox srv.
Proof.
  cbv zeta. unfold cleanupOldSessions.
  destruct (drop_sessions_lookup
              (fst <$> filter (λ entry, is_expired now entry.2 = true)
                         (map_to_list (sessions srv))) srv k)
    as (Hs & Hc & Ho).
  rewrite Hs, Hc, Ho.
  assert (Hkept : ∀ session, is_expired now session = false
            ↔ now - TestSession.startTime session ≤ SESSION_LIFETIME
              ∧ (TestSession.status session = TestStatus.completed
                 ∨ TestSession.status session = TestStatus.error →
                 now - TestSession.startTime session ≤ 60 * 60 * 1000)).
  { intros session. unfold is_expired. cbv zeta.
    rewrite orb_false_iff, andb_false_iff, orb_false_iff,
      !bool_decide_eq_false, !Z.ltb_ge.
    split.
    - intros [? [[? ?]|?]]; split; try done. intros [?|?]; done.
    - intros [? Hst]. split; [done|].
      destruct (decide (TestSession.status session = TestStatus.completed));
        [right; auto|].
      destruct (decide (TestSession.status session = TestStatus.error));
        [right; auto | by left]. }
  destruct (sessions srv !! k) as [s|] eqn:Hk.
  - destruct (is_expired now s) eqn:Hexp.
    + rewrite (bool_decide_true (k ∈ _)) by (apply expired_ids; eauto).
      split; [|split; [|done]].
      * intros session. split; [done|]. intros [[= <-] Hkeep].
        apply Hkept in Hkeep. congruence.
      * by rewrite bool_decide_true by eauto.
    + rewrite (bool_decide_false (k ∈ _)).
      2:{ intros (s' & Hs' & Hexp')%expired_ids. congruence. }
      split; [|split; [|done]].
      * intros session. split; [intros [= <-]; split; [done | by apply Hkept]
                               | by intros [? _]].
      * by rewrite bool_decide_false by (by intros [_ ?]).
  - rewrite (bool_decide_false (k ∈ _)).
    2:{ intros (s' & Hs' & Hexp')%expired_ids. congruence. }
    split; [|split; [|done]].
    + intros session. split; [done | by intros [? _]].
    + by rewrite bool_decide_false by (by intros [[? ?] _]).
Qed.



(** X18. Deleting a session removes it together with its subscriber and
    answers 200; deleting an unknown session answers 404 and changes
    nothing.  After the deletion a log for that session is dropped without
    a trace: [addLogToSession] stores nothing and broadcasts nothing. *)
Theorem deleted_session_drops_logs (sessionId : string) (srv : Server)
    (a : Append) :
  let answer := (delete_session_endpoint sessionId srv).1 in
  let srv' := (delete_session_endpoint sessionId srv).2 in
  (answer = 200 ↔ is_Some (sessions srv !! sessionId))
  ∧ (answer = 404 ↔ sessions srv !! sessionId = None)
  ∧ (answer = 404 → srv' = srv)
  ∧ sessions srv' !! sessionId = None
  ∧ (answer = 200 → websocketClients srv' !! sessionId = None)
  ∧ (∀ k, k ≠ sessionId → sessions srv' !! k = sessions srv !! k)
  ∧ (ap_session a = sessionId → appendLog srv' a = srv').
Proof.
  cbv zeta. unfold delete_session_endpoint.
  destruct (sessions srv !! sessionId) as [s|] eqn:Hs; cbn [fst snd];
    split_and!.
  - split; [by eauto | done].
  - split; done.
  - done.
  - apply lookup_delete_eq.
  - intros _. apply lookup_delete_eq.
  - intros k Hk. by apply lookup_delete_ne.
  - intros Ha. apply appendLog_absent. rewrite Ha. apply lookup_delete_eq.
  - split; [done | by intros [? ?]].
  - split; done.
  - done.
  - done.
  - done.
  - done.
  - intros Ha. apply appendLog_absent. by rewrite Ha.
Qed.

(** X19. A call of [addLogToSession] leaves the buffers of all other
    sessions as they are.  For a known session it makes exactly one
    broadcast attempt, and the entry is sent only when that session has a
    subscriber whose connection is open; for an unknown session it does
    nothing at all. *)
Theorem appendLog_broadcasts_once (srv : Server) (a : Append) :
  (∀ k, k ≠ ap_session a →
        logs_of_session k (appendLog srv a) = logs_of_session k srv)
  ∧ websocketClients (appendLog srv a) = websocketClients srv
  ∧ match sessions srv !! ap_session a with
    | None => appendLog srv a = srv
    | Some _ =>
        ∃ note,
          outbox (appendLog srv a) = outbox srv ++ [note]
          ∧ (note = Sent (ap_session a) (append_entry a)
             ↔ ∃ client, websocketClients srv !! ap_session a = Some client
                         ∧ readyState_open client = true
                         ∧ send_throws client = false)
    end.
Proof.
  destruct (sessions srv !! ap_session a) as [s|] eqn:Hs.
  - split; [|split].
    + intros k Hk. unfold logs_of_session.
      rewrite (appendLog_same srv a s Hs). by rewrite lookup_insert_ne.
    + unfold appendLog, addLogToSession. by rewrite Hs.
    + unfold appendLog, addLogToSession. rewrite Hs.
      unfold broadcastToSession. cbn [outbox websocketClients].
      eexists. split; [reflexivity|].
      destruct (websocketClients srv !! ap_session a) as [client|];
        [destruct (readyState_open client) eqn:Ho;
         [destruct (send_throws client) eqn:Ht|]|].
      * split; [done|]. intros (c & [= <-] & _ & ?). congruence.
      * split; [by eauto|done].
      * split; [done|]. intros (c & [= <-] & ? & _). congruence.
      * split; [done|]. by intros (c & ? & _).
  - rewrite (appendLog_absent srv a Hs). by repeat split.
Qed.

End ServerProperties.

(** ** The model at the sample inputs *)

Section Examples.
Local Existing Instance text_platform.

Example runTest_starts_post_run :
  runTest post_config "s1" 17 child_4242 idle_world
  = (started_world, Ret started_run)
  ∧ files started_world !! "/tmp/ab-s1-17.txt" = Some "name=ab"
  ∧ activeProcesses started_world !! "s1" = Some 0%nat
  ∧ trace started_world =
      [ OnLog info "Preparing to run Apache Benchmark...";
        OnLog info
          "Command: ab -n 10 -c 2 -m POST -v 3 -p /tmp/ab-s1-17.txt http://localhost:8080/";
        Spawn 0
          [ "ab"; "-n"; "10"; "-c"; "2"; "-m"; "POST"; "-v"; "3"; "-p";
            "/tmp/ab-s1-17.txt"; "http://localhost:8080/" ];
        OnLog info "🚀 Apache Benchmark started (PID: 4242)";
        OnLog info "Apache Benchmark started...";
        OnLog info "Running 10 requests with concurrency 2" ].
Proof. repeat split; reflexivity. Qed.

Example noisy_callbacks_log_when_running :
  logs_of (trace (foldl deliver (started_run, idle_world) noisy_callbacks).2)
  = [ (info, "🚀 Benchmarking localhost (be patient)");
      (error, "⚠️ Request #1: statusCode: 500, ");
      (info, "✅ Finished: 100 requests");
      (info, "⏳ Test is running...") ].
Proof. reflexivity. Qed.

(** C3, as stated, fails: for the started run with nothing on stdout and
    exit code 0, the port was left unset by parsing and the result has
    port 80, so not every unset number property of the result is 0. *)
Lemma successful_exit_port_defaults_to_80 :
  ¬ (∀ k, k ∈ numeric_fields →
       parseResults (output started_run) !! k = None →
       resolved_result (on_close (Some 0) (started_run, started_world)).1
         ≫= (λ result, result !! k)
       = Some (VNum (Int 0))).
Proof.
  intros Hall.
  assert (Hport : "serverPort" ∈ numeric_fields) by apply list_elem_of_here.
  specialize (Hall "serverPort" Hport eq_refl).
  change (Some (VNum (Int 80)) = Some (VNum (Int 0))) in Hall.
  discriminate Hall.
Qed.

Lemma successful_exit_result_defaults_witness :
  ∃ result,
    settled (on_close (Some 0) (started_run, started_world)).1
      = Some (Resolved (Some result))
    ∧ result !! "timeTaken" = Some (VNum (Int 0))
    ∧ result !! "serverPort" = Some (VNum (Int 80))
    ∧ result !! "concurrencyLevel" = Some (VNum (Int 2))
    ∧ result !! "documentLength" = None
    ∧ result !! "statusCodes" = None.
Proof.
  destruct (successful_exit_result_defaults started_run started_world)
    as (result & Hsettled & Hzero & Hport & Hlevel & Hkeep).
  - apply (bool_decide_unpack _). reflexivity.
  - reflexivity.
  - exists result. split; [exact Hsettled|].
    apply Forall_cons_1 in Hzero as [Htime _].
    apply Forall_cons_1 in Hkeep as [Hlength Hkeep].
    apply Forall_cons_1 in Hkeep as [Hcodes _].
    rewrite Htime, Hport, Hlevel, Hlength, Hcodes.
    repeat split; reflexivity.
Defined.

Lemma close_failed_leaves_payload_file_witness :
  files (on_close (Some 1) (started_run, started_world)).2 !! "/tmp/ab-s1-17.txt"
    = Some "name=ab"
  ∧ unlinks "/tmp/ab-s1-17.txt"
      (trace (on_close (Some 1) (started_run, started_world)).2) = 0%nat.
Proof.
  destruct (close_failed_leaves_payload_file started_run started_world
              (Some 1) "/tmp/ab-s1-17.txt" "name=ab")
    as (Hunlinks & Hfile & _).
  - reflexivity.
  - reflexivity.
  - apply (bool_decide_unpack _). reflexivity.
  - discriminate.
  - split; [exact Hfile|]. rewrite Hunlinks. reflexivity.
Defined.

Lemma stop_silences_stream_callbacks_witness :
  foldl deliver (started_run, stopped_world) noisy_callbacks
    = (started_run, stopped_world)
  ∧ logs_of (trace (on_close None
                      (foldl deliver (started_run, stopped_world) noisy_callbacks)).2)
    = logs_of (trace started_world) ++ [(info, "Test stopped by user")].
Proof.
  destruct (stop_silences_stream_callbacks started_run started_world
              stopped_world noisy_callbacks None)
    as (_ & _ & Hsame & _ & Hlogs).
  - reflexivity.
  - repeat constructor.
  - split; [exact Hsame | exact Hlogs].
Defined.

Lemma stopTest_without_live_process_witness :
  stopTest "s2" started_world = (false, started_world)
  ∧ stopTest "s1" stopped_world = (false, stopped_world).
Proof.
  split.
  - destruct (stopTest_without_live_process "s2" started_world) as [Hdead _].
    apply Hdead. reflexivity.
  - destruct (stopTest_without_live_process "s1" started_world) as [_ Hagain].
    apply (Hagain stopped_world). reflexivity.
Defined.

Lemma validateConfig_reports_every_violation_witness :
  length (filter (λ e, e = concurrency_exceeds_requests)
            (validateConfig overcommitted_config)) = 1%nat.
Proof.
  apply (validateConfig_reports_every_violation overcommitted_config).
  reflexivity.
Defined.

Lemma buildCommand_verbosity_at_least_3_witness :
  ∃ before after v,
    [ "ab"; "-n"; "10"; "-c"; "2"; "-v"; "3"; "http://localhost:8080/" ]
      = before ++ ["-v"; pretty v] ++ after
    ∧ 3 ≤ v.
Proof.
  destruct (buildCommand_verbosity_at_least_3 get_config "s1" 17 ∅ ∅
              {| args := [ "ab"; "-n"; "10"; "-c"; "2"; "-v"; "3";
                           "http://localhost:8080/" ];
                 dataFile := None |})
    as (before & after & v & Hargs & _ & Hv & _).
  - reflexivity.
  - exists before, after, v. split; [exact Hargs | exact Hv].
Defined.

Lemma buildCommand_GET_payload_like_POST_witness :
  buildCommand get_body_config "s1" 17 ∅
  = Ret ({| args := [ "ab"; "-n"; "10"; "-c"; "2"; "-v"; "3"; "-p";
                      "/tmp/ab-s1-17.txt"; "http://localhost:8080/" ];
            dataFile := Some "/tmp/ab-s1-17.txt" |},
         {[ "/tmp/ab-s1-17.txt" := "name=ab" ]}).
Proof.
  destruct (buildCommand_GET_payload_like_POST get_body_config "s1" 17 ∅)
    as (Hget & _).
  - reflexivity.
  - reflexivity.
  - rewrite Hget. reflexivity.
Defined.

Lemma parseResults_histogram_fields_witness :
  Forall (λ k, parseResults "Server Port: 8080" !! k = None) histogram_fields
  ∧ Forall (λ k, is_Some (parseResults three_status_lines !! k)) histogram_fields.
Proof.
  split.
  - apply (parseResults_histogram_fields "Server Port: 8080").
    repeat constructor.
  - apply (parseResults_histogram_fields three_status_lines).
    apply Exists_cons_hd. reflexivity.
Defined.

Lemma log_buffer_bounded_fifo_witness :
  length (logs_of_session "s1" (foldl appendLog fresh_server many_appends))
    = 500%nat
  ∧ logs_of_session "s1" (foldl appendLog fresh_server many_appends)
    = drop 2 (append_entry <$> many_appends).
Proof.
  destruct (log_buffer_bounded_fifo fresh_server "s1" many_appends)
    as (_ & _ & Hseq).
  destruct Hseq as (Hlogs & _ & Hlen).
  - eexists. reflexivity.
  - apply le_0_n.
  - split.
    + rewrite Hlen. vm_compute. reflexivity.
    + rewrite Hlogs. vm_compute. reflexivity.
Defined.

End Examples.


(** ** The further properties at the sample inputs *)

Section MoreExamples.
Local Existing Instance text_platform.

Lemma validateConfig_accepts_iff_witness : validateConfig get_config = [].
Proof.
  apply (validateConfig_accepts_iff get_config).
  split_and!; try done. intros [E|E]; discriminate E.
Defined.

Lemma buildCommand_first_and_last_witness :
  last [ "ab"; "-n"; "10"; "-c"; "2"; "-v"; "3"; "http://localhost:8080/" ]
  = Some "http://localhost:8080/".
Proof.
  destruct (buildCommand_first_and_last get_config "s1" 17 ∅ ∅
              {| args := [ "ab"; "-n"; "10"; "-c"; "2"; "-v"; "3";
                           "http://localhost:8080/" ];
                 dataFile := None |})
    as (middle & _ & Hlast).
  - reflexivity.
  - exact Hlast.
Defined.



Lemma status_codes_count_status_lines_witness :
  total_count [("200", 2); ("404", 1)] = 3.
Proof.
  destruct (status_codes_count_status_lines three_status_lines
              [("200", 2); ("404", 1)]) as [Htotal _].
  - reflexivity.
  - rewrite Htotal. reflexivity.
Defined.

Lemma status_classes_from_codes_witness :
  parseResults three_status_lines !! "clientErrors" = Some (VNum (Int 1)).
Proof.
  destruct (status_classes_from_codes three_status_lines
              [("200", 2); ("404", 1)]) as (_ & _ & Hclient & _).
  - reflexivity.
  - rewrite Hclient. reflexivity.
Defined.

Lemma labelled_property_presence_witness :
  is_Some (parseResults "Server Port:    8080" !! "serverPort").
Proof.
  apply (labelled_property_presence "Server Port:    8080" "serverPort"
           (λ t, includes t "Server Port:")).
  - do 2 apply list_elem_of_further. apply list_elem_of_here.
  - apply Exists_cons_hd. reflexivity.
Defined.

Lemma stream_callback_only_logs_witness :
  ∃ events,
    only_appends events started_world
      (deliver (started_run, started_world)
         (StderrData "Completed 100 requests")).2
    ∧ Forall (λ e, is_log e = true) events
    ∧ (length events ≤ 1)%nat.
Proof.
  apply (stream_callback_only_logs (StderrData "Completed 100 requests")
           started_run started_world).
  reflexivity.
Defined.


Lemma close_is_terminal_witness :
  settled (on_close (Some 1) (started_run, started_world)).1
  = Some (Rejected "Apache Benchmark finished with code 1: ").
Proof.
  destruct (close_is_terminal (Some 1) started_run started_world)
    as (_ & _ & _ & _ & _ & _ & _ & _ & Hsettled).
  rewrite Hsettled; reflexivity.
Defined.

Lemma stopTest_kill_throws_witness :
  ∃ w', stopTest "s1" stubborn_world = (false, w')
        ∧ "s1" ∈ stoppedByUser w'
        ∧ activeProcesses w' = activeProcesses stubborn_world.
Proof.
  destruct (stopTest_kill_throws "s1" stubborn_world 0%nat
              {| pid := Some 4242; killed := false; exitCode := None;
                 kill_answer := KillThrows "EPERM" |} "EPERM")
    as (w' & Hstop & Hflag & Hactive & _); try reflexivity.
  exists w'. by split_and!.
Defined.

Lemma other_sessions_untouched_witness :
  activeProcesses (stopTest "s1" started_world).2 !! "s2"
  = activeProcesses started_world !! "s2".
Proof.
  destruct (other_sessions_untouched "s2" started_run started_world
              (Close None)) as (Hactive & _).
  - discriminate.
  - exact Hactive.
Defined.



Lemma cleanupOldSessions_survivors_witness :
  is_Some (sessions (cleanupOldSessions (17 + 2 * 60 * 60 * 1000) fresh_server)
             !! "s1")
  ∧ sessions (cleanupOldSessions (17 + 25 * 60 * 60 * 1000) fresh_server)
      !! "s1" = None.
Proof.
  split.
  - destruct (cleanupOldSessions_survivors (17 + 2 * 60 * 60 * 1000)
                fresh_server "s1") as (Hkeep & _).
    eexists. apply Hkeep. split; [reflexivity|]. split.
    + cbn. unfold SESSION_LIFETIME. lia.
    + cbn. intros [E|E]; discriminate E.
  - destruct (sessions (cleanupOldSessions (17 + 25 * 60 * 60 * 1000)
                          fresh_server) !! "s1")
      as [session|] eqn:Hs; [|reflexivity].
    destruct (cleanupOldSessions_survivors (17 + 25 * 60 * 60 * 1000)
                fresh_server "s1") as (Hkeep & _).
    apply Hkeep in Hs as [Hs [Hold _]].
    injection Hs as <-. exfalso. apply Hold. reflexivity.
Defined.


Lemma deleted_session_drops_logs_witness :
  appendLog (delete_session_endpoint "s1" fresh_server).2 one_append
  = (delete_session_endpoint "s1" fresh_server).2.
Proof.
  apply (deleted_session_drops_logs "s1" fresh_server one_append).
  reflexivity.
Defined.

Lemma appendLog_broadcasts_once_witness :
  logs_of_session "s2" (appendLog fresh_server one_append)
  = logs_of_session "s2" fresh_server.
Proof.
  apply (appendLog_broadcasts_once fresh_server one_append).
  discriminate.
Defined.


End MoreExamples.
